(** * AADHAAR-DRISHTI dashboard: the data transformations and the briefing
      action of [frontend/src/App.jsx], embedded in Rocq.

    The component keeps its state in React hooks and derives four view
    models from it with [useMemo] ([trendData], [studioData], [chartData],
    [demographicSplit]); [generateBriefing] is its one action that talks to
    the interpretation endpoint.  The derived values are pure functions of
    the state and are embedded as functions; the action is embedded as a
    program in a small state monad over the hook state and the log of
    requests sent.

    Counts ([total_updates], the age bands, ...) are integers and are
    modelled in [Z]; JavaScript adds them exactly as long as they stay
    below 2^53.  The numbers of the prediction payload go through
    [parseFloat], [*] and [toFixed]; those belong to the engine
    ([Js.Engine]) and are left to it, apart from [NaN], the one value the
    code's control flow depends on. *)

From Stdlib Require Import ZArith NArith List String Ascii Bool Lia.
From Stdlib Require Import Sorted Permutation QArith Qabs Lqa.
Import ListNotations.

Local Open Scope string_scope.
Local Open Scope Z_scope.
Local Open Scope list_scope.

(* ================================================================== *)
(** * JavaScript objects used as accumulators *)

(** [rawData.reduce((acc, curr) => ..., {})] builds an ordinary object.
    The model keeps its own properties in creation order, which is what
    [Object.values] needs, and knows which names every object inherits
    from [Object.prototype]: for such a name [acc[k]] is truthy although
    [acc] has no own property [k]. *)
Module JsObject.

Definition t (V : Type) : Type := list (string * V).

Definition empty {V : Type} : t V := [].

Fixpoint own {V : Type} (o : t V) (k : string) : option V :=
  match o with
  | [] => None
  | (k', v) :: o' => if String.eqb k' k then Some v else own o' k
  end.

Definition has_own {V : Type} (o : t V) (k : string) : bool :=
  match own o k with Some _ => true | None => false end.

(** The properties of [Object.prototype] (Annex B included). *)
Definition Object_prototype_names : list string :=
  [ "constructor"; "hasOwnProperty"; "isPrototypeOf";
    "propertyIsEnumerable"; "toLocaleString"; "toString"; "valueOf";
    "__proto__"; "__defineGetter__"; "__defineSetter__";
    "__lookupGetter__"; "__lookupSetter__" ].

Definition inherited (k : string) : bool :=
  existsb (String.eqb k) Object_prototype_names.

(** Truthiness of [o[k]] for an accumulator whose own values are objects. *)
Definition truthy_at {V : Type} (o : t V) (k : string) : bool :=
  has_own o k || inherited k.

(** [o[k] = v] for a name that is not yet an own property. *)
Definition define {V : Type} (o : t V) (k : string) (v : V) : t V :=
  o ++ [(k, v)].

(** [o[k].field += ...]: the object stored under [k] is changed in place.
    When [k] is only inherited the object changed is the prototype's, and
    [o] keeps its own properties as they are. *)
Definition update {V : Type} (o : t V) (k : string) (f : V -> V) : t V :=
  map (fun kv => if String.eqb (fst kv) k then (fst kv, f (snd kv)) else kv) o.

(** ** Property order *)

Definition digit (c : ascii) : option N :=
  let n := N_of_ascii c in
  if ((48 <=? n) && (n <=? 57))%N then Some (n - 48)%N else None.

Fixpoint digits (s : string) (acc : N) : option N :=
  match s with
  | EmptyString => Some acc
  | String c s' =>
      match digit c with
      | Some d => digits s' (10 * acc + d)%N
      | None => None
      end
  end.

(** An array index is a canonical numeric string below 2^32 - 1. *)
Definition array_index (k : string) : option N :=
  match k with
  | EmptyString => None
  | String c rest =>
      if Ascii.eqb c "0"%char && negb (String.eqb rest "") then None
      else match digits k 0%N with
           | Some n => if (n <? 4294967295)%N then Some n else None
           | None => None
           end
  end.

Definition is_index (k : string) : bool :=
  match array_index k with Some _ => true | None => false end.

Fixpoint insert_index {V : Type} (n : N) (v : V) (l : list (N * V))
  : list (N * V) :=
  match l with
  | [] => [(n, v)]
  | (m, w) :: l' =>
      if (n <=? m)%N then (n, v) :: l else (m, w) :: insert_index n v l'
  end.

Fixpoint indexed {V : Type} (o : t V) : list (N * V) :=
  match o with
  | [] => []
  | (k, v) :: o' =>
      match array_index k with
      | Some n => insert_index n v (indexed o')
      | None => indexed o'
      end
  end.

Definition named {V : Type} (o : t V) : list V :=
  map snd (filter (fun kv => negb (is_index (fst kv))) o).

(** [Object.values]: integer-like names in ascending numeric order, then
    the other names in creation order. *)
Definition Object_values {V : Type} (o : t V) : list V :=
  map snd (indexed o) ++ named o.

End JsObject.

(* ================================================================== *)
(** * [Array.prototype.sort] with a comparator *)

(** A comparator returns a number; [None] stands for [NaN], which the
    sort reads as [+0].  The sort is stable.  For a comparator that is a
    consistent ordering every stable sort returns the list computed here;
    otherwise the language leaves the order to the implementation. *)
Module JsArray.

Section Sort.
Context {A : Type}.
Variable comparefn : A -> A -> option Z.

(** [comparefn(x, y) > 0]: [x] belongs after [y]. *)
Definition after (x y : A) : bool :=
  match comparefn x y with
  | Some v => 0 <? v
  | None => false
  end.

Fixpoint insert (x : A) (l : list A) : list A :=
  match l with
  | [] => [x]
  | y :: l' => if after x y then y :: insert x l' else x :: l
  end.

Fixpoint sort (l : list A) : list A :=
  match l with
  | [] => []
  | x :: l' => insert x (sort l')
  end.
End Sort.

(** [arr.slice(0, n)] *)
Definition slice0 {A : Type} (n : nat) (l : list A) : list A := firstn n l.

End JsArray.

(* ================================================================== *)
(** * Records and the falsy defaults *)

(** One element of [rawData] as the summary endpoint sends it.  A field
    that is absent or [null] is [None]. *)
Module Raw.
Record t : Type := mk {
  date : option string;
  state : option string;
  district : option string;
  total_updates : option Z;
  total_enrolment : option Z;
  age_0_5 : option Z;
  age_5_17 : option Z;
  age_18_greater : option Z
}.
End Raw.

(** [s || d] on a string field: absent and the empty string are falsy. *)
Definition or_string (s : option string) (d : string) : string :=
  match s with
  | Some x => if String.eqb x "" then d else x
  | None => d
  end.

(** [n || 0] on a count. *)
Definition or_zero (n : option Z) : Z :=
  match n with
  | Some x => x
  | None => 0
  end.

(* ================================================================== *)
(** * Dates *)

(** [new Date(s)] yields a time value in milliseconds, or an invalid date
    ([None], which subtracts to [NaN]).  The date-only forms of the
    language's date-time format are computed here, for days that exist;
    what an engine makes of any other string is its own business and
    stays a parameter ([Date_parse_other]). *)
Module JsDate.

Definition digit (c : ascii) : option Z :=
  option_map Z.of_N (JsObject.digit c).

Definition two_digits (a b : ascii) : option Z :=
  match digit a, digit b with
  | Some x, Some y => Some (10 * x + y)
  | _, _ => None
  end.

Definition four_digits (a b c d : ascii) : option Z :=
  match two_digits a b, two_digits c d with
  | Some x, Some y => Some (100 * x + y)
  | _, _ => None
  end.

Definition DayFromYear (y : Z) : Z :=
  365 * (y - 1970) + (y - 1969) / 4 - (y - 1901) / 100 + (y - 1601) / 400.

Definition InLeapYear (y : Z) : bool :=
  ((y mod 4 =? 0) && negb (y mod 100 =? 0)) || (y mod 400 =? 0).

(** Days before the first of month [m] (1 to 12) in a common year. *)
Definition days_before_month (m : Z) : Z :=
  nth (Z.to_nat (m - 1)) [0; 31; 59; 90; 120; 151; 181; 212; 243; 273; 304; 334] 0.

Definition MakeDay (y m d : Z) : Z :=
  DayFromYear y + days_before_month m
  + (if InLeapYear y && (2 <? m) then 1 else 0) + (d - 1).

Definition msPerDay : Z := 86400000.

Definition month_ok (m : Z) : bool := (1 <=? m) && (m <=? 12).

Definition days_in_month (y m : Z) : Z :=
  if m =? 2 then (if InLeapYear y then 29 else 28)
  else nth (Z.to_nat (m - 1)) [31; 28; 31; 30; 31; 30; 31; 31; 30; 31; 30; 31] 0.

(** A day of the month that exists; engines disagree on the others. *)
Definition day_ok (y m d : Z) : bool := (1 <=? d) && (d <=? days_in_month y m).

(** [YYYY], [YYYY-MM] and [YYYY-MM-DD], read as UTC. *)
Definition date_only (s : string) : option Z :=
  match s with
  | String y1 (String y2 (String y3 (String y4 rest))) =>
      match four_digits y1 y2 y3 y4 with
      | None => None
      | Some y =>
          match rest with
          | EmptyString => Some (msPerDay * MakeDay y 1 1)
          | String "-" (String m1 (String m2 rest')) =>
              match two_digits m1 m2 with
              | None => None
              | Some m =>
                  if month_ok m then
                    match rest' with
                    | EmptyString => Some (msPerDay * MakeDay y m 1)
                    | String "-" (String d1 (String d2 EmptyString)) =>
                        match two_digits d1 d2 with
                        | Some d =>
                            if day_ok y m d then Some (msPerDay * MakeDay y m d)
                            else None
                        | None => None
                        end
                    | _ => None
                    end
                  else None
              end
          | _ => None
          end
      end
  | _ => None
  end.

Section Parse.
Variable Date_parse_other : string -> option Z.

Definition parse (s : string) : option Z :=
  match date_only s with
  | Some t => Some t
  | None => Date_parse_other s
  end.

(** [new Date(a) - new Date(b)] *)
Definition minus (a b : string) : option Z :=
  match parse a, parse b with
  | Some x, Some y => Some (x - y)
  | _, _ => None
  end.
End Parse.

(** An engine that recognises the date-only forms and nothing else. *)
Definition strict_engine : string -> option Z := fun _ => None.

End JsDate.

(* ================================================================== *)
(** * The time series: [trendData] *)

Module Trend.
Record point : Type := mk { date : string; updates : Z; enrolments : Z }.
End Trend.

(** The callback of [rawData.reduce] in [trendData]. *)
Definition trend_reducer (acc : JsObject.t Trend.point) (curr : Raw.t)
  : JsObject.t Trend.point :=
  let d := or_string (Raw.date curr) "N/A" in
  let acc :=
    if negb (JsObject.truthy_at acc d)
    then JsObject.define acc d (Trend.mk d 0 0)
    else acc in
  let acc :=
    JsObject.update acc d (fun p =>
      Trend.mk (Trend.date p)
               (Trend.updates p + or_zero (Raw.total_updates curr))
               (Trend.enrolments p)) in
  JsObject.update acc d (fun p =>
    Trend.mk (Trend.date p)
             (Trend.updates p)
             (Trend.enrolments p + or_zero (Raw.total_enrolment curr))).

Section TrendData.
Variable Date_parse_other : string -> option Z.

(** [(a, b) => new Date(a.date) - new Date(b.date)] *)
Definition by_date (a b : Trend.point) : option Z :=
  JsDate.minus Date_parse_other (Trend.date a) (Trend.date b).

Definition trendData (rawData : list Raw.t) : list Trend.point :=
  match rawData with
  | [] => []
  | _ =>
      let map := fold_left trend_reducer rawData JsObject.empty in
      JsArray.sort by_date (JsObject.Object_values map)
  end.
End TrendData.

(* ================================================================== *)
(** * The pivot: [studioData] *)

(** The options of the DIMENSION and METRIC selectors. *)
Inductive dimension : Type := By_state | By_district | By_date.
Inductive metric : Type := Total_updates | Total_enrolment.

(** [curr[pivotX]] and [curr[pivotY]] *)
Definition dimension_of (pivotX : dimension) (curr : Raw.t) : option string :=
  match pivotX with
  | By_state => Raw.state curr
  | By_district => Raw.district curr
  | By_date => Raw.date curr
  end.

Definition metric_of (pivotY : metric) (curr : Raw.t) : option Z :=
  match pivotY with
  | Total_updates => Raw.total_updates curr
  | Total_enrolment => Raw.total_enrolment curr
  end.

Module Pivot.
Record entry : Type := mk { name : string; value : Z }.
End Pivot.

Definition studio_reducer (pivotX : dimension) (pivotY : metric)
  (acc : JsObject.t Pivot.entry) (curr : Raw.t) : JsObject.t Pivot.entry :=
  let xVal := or_string (dimension_of pivotX curr) "Unknown" in
  let acc :=
    if negb (JsObject.truthy_at acc xVal)
    then JsObject.define acc xVal (Pivot.mk xVal 0)
    else acc in
  JsObject.update acc xVal (fun e =>
    Pivot.mk (Pivot.name e) (Pivot.value e + or_zero (metric_of pivotY curr))).

(** [(a, b) => b.value - a.value] *)
Definition by_value_desc (a b : Pivot.entry) : option Z :=
  Some (Pivot.value b - Pivot.value a).

Definition studioData (rawData : list Raw.t) (pivotX : dimension)
  (pivotY : metric) : list Pivot.entry :=
  match rawData with
  | [] => []
  | _ =>
      let map := fold_left (studio_reducer pivotX pivotY) rawData JsObject.empty in
      JsArray.slice0 12 (JsArray.sort by_value_desc (JsObject.Object_values map))
  end.

(* ================================================================== *)
(** * The age bands: [demographicSplit] *)

Module Demographic.
Record totals : Type := mk_totals { infants : Z; students : Z; adults : Z }.
Record slice : Type := mk { name : string; value : Z; color : string }.
End Demographic.

Definition demographic_reducer (acc : Demographic.totals) (curr : Raw.t)
  : Demographic.totals :=
  Demographic.mk_totals
    (Demographic.infants acc + or_zero (Raw.age_0_5 curr))
    (Demographic.students acc + or_zero (Raw.age_5_17 curr))
    (Demographic.adults acc + or_zero (Raw.age_18_greater curr)).

Definition demographicSplit (rawData : list Raw.t) : list Demographic.slice :=
  match rawData with
  | [] => []
  | _ =>
      let s := fold_left demographic_reducer rawData (Demographic.mk_totals 0 0 0) in
      [ Demographic.mk "Infants (0-5)" (Demographic.infants s) "#38bdf8";
        Demographic.mk "Students (5-17)" (Demographic.students s) "#818cf8";
        Demographic.mk "Adults (18+)" (Demographic.adults s) "#c084fc" ]
  end.

(* ================================================================== *)
(** * Numbers and JSON values of the prediction and briefing payloads *)

Module Js.

(** A number is [NaN] or one of the other doubles, whose arithmetic and
    printing are the engine's. *)
Inductive number (num : Type) : Type :=
| NaN
| Num (x : num).
Arguments NaN {num}.
Arguments Num {num} x.

#[warnings="-register-all"] Inductive value (num : Type) : Type :=
| Undefined
| Null
| Boolean (b : bool)
| Number (n : number num)
| Str (s : string)
| Object (props : list (string * value num)).
Arguments Undefined {num}.
Arguments Null {num}.
Arguments Boolean {num} b.
Arguments Number {num} n.
Arguments Str {num} s.
Arguments Object {num} props.

Class Engine (num : Type) : Type := {
  of_Z : Z -> num;
  (** the product of two numbers neither of which is [NaN] *)
  multiply : num -> num -> number num;
  (** [+0] and [-0] *)
  is_zero : num -> bool;
  (** [x.toFixed(digits)] *)
  toFixed : num -> nat -> string;
  (** the global [parseFloat] *)
  parseFloat : value num -> number num;
  (** [ToNumber] of a string *)
  string_to_number : string -> number num
}.

(** Why a request made with axios rejects: no reply in time, no connection,
    or a reply whose status is outside 2xx. *)
Inductive rejection : Type :=
| Timeout
| NetworkError
| BadStatus (code : Z).

Inductive exn : Type :=
| TypeError
| AxiosError (why : rejection).

Inductive completion (A : Type) : Type :=
| Normal (a : A)
| Throw (e : exn).
Arguments Normal {A} a.
Arguments Throw {A} e.

Section Operators.
Context {num : Type} {engine : Engine num}.

(** [a * b] *)
Definition times (a b : number num) : number num :=
  match a, b with
  | Num x, Num y => multiply x y
  | _, _ => NaN
  end.

(** [a.toFixed(digits)] *)
Definition number_toFixed (a : number num) (digits : nat) : string :=
  match a with
  | NaN => "NaN"
  | Num x => toFixed x digits
  end.

Definition ToNumber (v : value num) : number num :=
  match v with
  | Undefined => NaN
  | Null => Num (of_Z 0)
  | Boolean b => Num (of_Z (if b then 1 else 0))
  | Number n => n
  | Str s => string_to_number s
  | Object _ => NaN
  end.

Definition truthy (v : value num) : bool :=
  match v with
  | Undefined => false
  | Null => false
  | Boolean b => b
  | Number NaN => false
  | Number (Num x) => negb (is_zero x)
  | Str s => negb (String.eqb s "")
  | Object _ => true
  end.

(** [a || b] *)
Definition or_else (a b : value num) : value num :=
  if truthy a then a else b.

Fixpoint lookup (props : list (string * value num)) (k : string)
  : value num :=
  match props with
  | [] => Undefined
  | (k', v) :: rest => if String.eqb k' k then v else lookup rest k
  end.

(** [v.k] for a name [k] that no prototype defines: reading a property of
    [undefined] or [null] throws, a primitive has no such property. *)
Definition get (v : value num) (k : string) : completion (value num) :=
  match v with
  | Undefined => Throw TypeError
  | Null => Throw TypeError
  | Object props => Normal (lookup props k)
  | _ => Normal Undefined
  end.
End Operators.

End Js.

(* ================================================================== *)
(** * The combined chart series: [chartData] *)

Module Prediction.
(** One model's entry of the model-comparison payload. *)
Record entry (num : Type) : Type := mk_entry {
  val : Js.value num;
  confidence : Js.number num
}.
Arguments mk_entry {num} val confidence.
Arguments val {num} e.
Arguments confidence {num} e.

Record details (num : Type) : Type := mk {
  xgboost : option (entry num);
  random_forest : option (entry num)
}.
Arguments mk {num} xgboost random_forest.
Arguments xgboost {num} d.
Arguments random_forest {num} d.

(** [details[modelKey]] *)
Definition at_key {num : Type} (d : details num) (modelKey : string)
  : option (entry num) :=
  if String.eqb modelKey "xgboost" then xgboost d
  else if String.eqb modelKey "random_forest" then random_forest d
  else None.
End Prediction.

Module Chart.
(** A point of the chart: [updates] and [enrolments] are [null] ([None])
    on the forecast node, the forecast fields are absent ([None]) on the
    points taken from the time series as they are. *)
Record point (num : Type) : Type := mk {
  date : string;
  updates : option Z;
  enrolments : option Z;
  xgbForecast : option (Js.number num);
  rfForecast : option (Js.number num)
}.
Arguments mk {num} date updates enrolments xgbForecast rfForecast.
Arguments date {num} p.
Arguments updates {num} p.
Arguments enrolments {num} p.
Arguments xgbForecast {num} p.
Arguments rfForecast {num} p.

(** A point of [trendData] seen as a chart point. *)
Definition of_trend {num : Type} (d : Trend.point) : point num :=
  mk (Trend.date d) (Some (Trend.updates d)) (Some (Trend.enrolments d))
     None None.
End Chart.

(** [arr.map((d, i) => ...)] *)
Fixpoint map_from {A B : Type} (f : A -> nat -> B) (i : nat) (l : list A)
  : list B :=
  match l with
  | [] => []
  | d :: l' => f d i :: map_from f (S i) l'
  end.

Definition map_indexed {A B : Type} (f : A -> nat -> B) (l : list A) : list B :=
  map_from f 0 l.

Section ChartData.
Context {num : Type} {engine : Js.Engine num}.

Definition million : Js.number num := Js.Num (Js.of_Z 1000000).

Definition chartData (trendData : list Trend.point)
  (predictionDetails : option (Prediction.details num))
  : Js.completion (list (Chart.point num)) :=
  match trendData, predictionDetails with
  | [], _ => Js.Normal (map Chart.of_trend trendData)
  | _, None => Js.Normal (map Chart.of_trend trendData)
  | _, Some details =>
      match Prediction.xgboost details with
      | None => Js.Throw Js.TypeError
      | Some xgb =>
          let xgbVal := Js.times (Js.parseFloat (Prediction.val xgb)) million in
          match Prediction.random_forest details with
          | None => Js.Throw Js.TypeError
          | Some rf =>
              let rfVal := Js.times (Js.parseFloat (Prediction.val rf)) million in
              let forecastNode :=
                Chart.mk "Next Cycle (Est)" None None (Some xgbVal) (Some rfVal) in
              let updatedHistory :=
                map_indexed (fun d i =>
                  if Nat.eqb i (List.length trendData - 1)%nat
                  then Chart.mk (Trend.date d)
                                (Some (Trend.updates d))
                                (Some (Trend.enrolments d))
                                (Some (Js.Num (Js.of_Z (Trend.updates d))))
                                (Some (Js.Num (Js.of_Z (Trend.updates d))))
                  else Chart.of_trend d) trendData in
              Js.Normal (updatedHistory ++ [forecastNode])
          end
      end
  end.
End ChartData.

(* ================================================================== *)
(** * The component's state and [generateBriefing] *)

Module App.

Record state (num : Type) : Type := mk_state {
  rawData : list Raw.t;
  governanceData : Js.value num;
  predictionDetails : option (Prediction.details num);
  status : string;
  activeModel : string;
  aiBriefing : Js.value num;
  isAiLoading : bool;
  pivotX : dimension;
  pivotY : metric;
  uploadStatus : option string
}.
Arguments mk_state {num}.
Arguments rawData {num} s.
Arguments governanceData {num} s.
Arguments predictionDetails {num} s.
Arguments status {num} s.
Arguments activeModel {num} s.
Arguments aiBriefing {num} s.
Arguments isAiLoading {num} s.
Arguments pivotX {num} s.
Arguments pivotY {num} s.
Arguments uploadStatus {num} s.

(** The body posted to the interpretation endpoint. *)
Record request (num : Type) : Type := mk_request {
  model : string;
  volume : Js.value num;
  confidence : string;
  district : string
}.
Arguments mk_request {num}.
Arguments model {num} r.
Arguments volume {num} r.
Arguments confidence {num} r.
Arguments district {num} r.

(** What [await axios.post(...)] comes back with: a rejection, or a 2xx
    response whose body ([res.data]) is some JSON value. *)
Inductive reply (num : Type) : Type :=
| Rejected (why : Js.rejection)
| Resolved (data : Js.value num).
Arguments Rejected {num} why.
Arguments Resolved {num} data.

(** The hook state together with the requests sent so far. *)
Record world (num : Type) : Type := mk_world {
  hooks : state num;
  posted : list (string * request num)
}.
Arguments mk_world {num}.
Arguments hooks {num} w.
Arguments posted {num} w.

Section Action.
Context {num : Type} {engine : Js.Engine num}.
(** The network and the backend behind it. *)
Variable network : string -> request num -> reply num.

Definition M (A : Type) : Type := world num -> Js.completion A * world num.

Definition ret {A : Type} (a : A) : M A := fun w => (Js.Normal a, w).

Definition bind {A B : Type} (m : M A) (k : A -> M B) : M B :=
  fun w =>
    match m w with
    | (Js.Normal a, w') => k a w'
    | (Js.Throw e, w') => (Js.Throw e, w')
    end.

Definition lift {A : Type} (c : Js.completion A) : M A := fun w => (c, w).

(** [try { body } catch (err) { handler } finally { final }] *)
Definition try_catch_finally (body : M unit) (handler : Js.exn -> M unit)
  (final : M unit) : M unit :=
  fun w =>
    let (r, w1) := body w in
    let (r', w2) :=
      match r with
      | Js.Normal a => (Js.Normal a, w1)
      | Js.Throw e => handler e w1
      end in
    match final w2 with
    | (Js.Normal _, w3) => (r', w3)
    | (Js.Throw e, w3) => (Js.Throw e, w3)
    end.

Definition setIsAiLoading (b : bool) : M unit :=
  fun w =>
    let s := hooks w in
    (Js.Normal tt,
     mk_world
       (mk_state (rawData s) (governanceData s) (predictionDetails s)
          (status s) (activeModel s) (aiBriefing s) b (pivotX s) (pivotY s)
          (uploadStatus s))
       (posted w)).

Definition setAiBriefing (v : Js.value num) : M unit :=
  fun w =>
    let s := hooks w in
    (Js.Normal tt,
     mk_world
       (mk_state (rawData s) (governanceData s) (predictionDetails s)
          (status s) (activeModel s) v (isAiLoading s) (pivotX s) (pivotY s)
          (uploadStatus s))
       (posted w)).

(** [await axios.post(url, body)], giving [res.data]. *)
Definition axios_post (url : string) (body : request num) : M (Js.value num) :=
  fun w =>
    let w' := mk_world (hooks w) (posted w ++ [(url, body)]) in
    match network url body with
    | Rejected why => (Js.Throw (Js.AxiosError why), w')
    | Resolved data => (Js.Normal data, w')
    end.

Definition ai_interpret : string :=
  "https://aadhaar-drishti.onrender.com/api/ai-interpret".

Definition failed_text : string :=
  "Strategic Briefing failed. Verify backend AI configuration.".

(** [currentPred?.val] and [currentPred?.confidence] *)
Definition val_of (currentPred : option (Prediction.entry num)) : Js.value num :=
  match currentPred with
  | Some e => Prediction.val e
  | None => Js.Undefined
  end.

Definition confidence_of (currentPred : option (Prediction.entry num))
  : Js.value num :=
  match currentPred with
  | Some e => Js.Number (Prediction.confidence e)
  | None => Js.Undefined
  end.

(** [predictionDetails?.[modelKey]] for the active model. *)
Definition currentPred (s : state num) : option (Prediction.entry num) :=
  let modelKey :=
    if String.eqb (activeModel s) "XGBoost" then "xgboost" else "random_forest" in
  match predictionDetails s with
  | Some d => Prediction.at_key d modelKey
  | None => None
  end.

(** The body [generateBriefing] posts, built from the values of the render
    it was created in. *)
Definition briefing_request (s : state num) : request num :=
  mk_request
    (activeModel s)
    (Js.or_else (val_of (currentPred s)) (Js.Str "N/A"))
    (Js.number_toFixed
       (Js.times (Js.ToNumber (confidence_of (currentPred s)))
                 (Js.Num (Js.of_Z 100)))
       1 ++ "%")%string
    "National Strategic Grid".

Definition generateBriefing (s : state num) : M unit :=
  bind (setIsAiLoading true) (fun _ =>
  try_catch_finally
    (bind (axios_post ai_interpret (briefing_request s)) (fun data =>
     bind (lift (Js.get data "interpretation")) (fun interpretation =>
     setAiBriefing interpretation)))
    (fun err => setAiBriefing (Js.Str failed_text))
    (setIsAiLoading false)).

(** A click on the button: the action of the current render runs on the
    current hooks. *)
Definition click (s : state num) : Js.completion unit * world num :=
  generateBriefing s (mk_world s []).
End Action.

End App.

(* ================================================================== *)
(** * An engine over the integers *)

(** The doubles that are integers, with exact products: enough to run the
    definitions above on payloads whose numbers are integers of moderate
    size ([toFixed] prints them in full, as the language does below 1e21). *)
Module IntegerEngine.

Definition digit_char (d : Z) : ascii := ascii_of_N (Z.to_N (48 + d)).

Fixpoint decimal_from (fuel : nat) (n : Z) (acc : string) : string :=
  match fuel with
  | O => acc
  | S fuel' =>
      let acc' := String (digit_char (n mod 10)) acc in
      if n / 10 =? 0 then acc' else decimal_from fuel' (n / 10) acc'
  end.

Definition decimal (n : Z) : string :=
  let body := decimal_from (S (Z.to_nat (Z.log2 (Z.abs n)))) (Z.abs n) "" in
  if n <? 0 then String "-" body else body.

Fixpoint zeros (n : nat) : string :=
  match n with
  | O => ""
  | S n' => String "0" (zeros n')
  end.

Definition toFixed (x : Z) (digits : nat) : string :=
  match digits with
  | O => decimal x
  | _ => (decimal x ++ "." ++ zeros digits)%string
  end.

(** Only numbers and strings made of digits alone are read; signs, blanks,
    fractions and trailing text, which [parseFloat] accepts, are outside
    this engine and read as [NaN] here. *)
Definition of_string (s : string) : Js.number Z :=
  match s with
  | EmptyString => Js.NaN
  | _ => match JsObject.digits s 0%N with
         | Some n => Js.Num (Z.of_N n)
         | None => Js.NaN
         end
  end.

Definition parseFloat (v : Js.value Z) : Js.number Z :=
  match v with
  | Js.Number n => n
  | Js.Str s => of_string s
  | _ => Js.NaN
  end.

#[global] Instance engine : Js.Engine Z := {
  Js.of_Z := fun z => z;
  Js.multiply := fun x y => Js.Num (x * y);
  Js.is_zero := fun x => x =? 0;
  Js.toFixed := toFixed;
  Js.parseFloat := parseFloat;
  Js.string_to_number := of_string
}.

End IntegerEngine.

(* ================================================================== *)
(** * The Model Arbiter *)

(** The arbiter runs behind the model-comparison endpoint, whose code is
    not part of the frontend: the dashboard only receives each model's
    [val] and [confidence], and starts with [activeModel] set to
    ['XGBoost']. *)
Module Arbiter.

(** Modelled from the spec: the closed enumeration of the two model
    identities, the bagged-tree and the boosted-tree ensemble. *)
Inductive model_name : Type := RandomForest | XGBoost.

(** Modelled from the spec: a forecast result as the arbiter receives it
    after repeated evaluation, with its stability score (a variance, lower
    is more stable) and its accuracy (mean error, lower is more accurate). *)
Record evaluated : Type := mk_evaluated {
  name : model_name;
  stability : Q;
  mean_error : Q
}.

(** Modelled from the spec: the configured tie-break tolerance, an
    absolute difference or a difference relative to the larger score. *)
Inductive tolerance : Type :=
| Absolute (eps : Q)
| Relative (ratio : Q).

(** Modelled from the spec: why the default was chosen. *)
Inductive rationale : Type :=
| LowerVariance
| AccuracyTieBreak.

(** Modelled from the spec: the arbiter's decision record, or the pending
    state when a forecast result is missing. *)
Inductive decision : Type :=
| Pending
| Decided (default_model_name : model_name)
          (stability_score_a stability_score_b : Q) (why : rationale).

(** Modelled from the spec: two stability scores are indistinguishable
    when they differ by no more than the tolerance. *)
Definition within (tol : tolerance) (x y : Q) : bool :=
  match tol with
  | Absolute eps => Qle_bool (Qabs (x - y)) eps
  | Relative ratio =>
      let larger := if Qle_bool (Qabs x) (Qabs y) then Qabs y else Qabs x in
      Qle_bool (Qabs (x - y)) (ratio * larger)
  end.

(** Modelled from the spec: the decision rule of the arbiter.  The lower
    stability score wins; accuracy decides only between scores that are
    within the tolerance. *)
Definition decide (tol : tolerance) (a b : option evaluated) : decision :=
  match a, b with
  | Some ra, Some rb =>
      if within tol (stability ra) (stability rb)
      then Decided
             (if Qle_bool (mean_error ra) (mean_error rb) then name ra else name rb)
             (stability ra) (stability rb) AccuracyTieBreak
      else Decided
             (if Qle_bool (stability ra) (stability rb) then name ra else name rb)
             (stability ra) (stability rb) LowerVariance
  | _, _ => Pending
  end.

(** Modelled from the spec: the model a decision presents as default. *)
Definition default_of (d : decision) : option model_name :=
  match d with
  | Pending => None
  | Decided m _ _ _ => Some m
  end.

End Arbiter.

(* ================================================================== *)
(** * The Briefing Gateway and its circuit breaker *)

(** The gateway sits behind the interpretation endpoint, in the backend;
    the frontend's [generateBriefing] is its caller. *)
Module Gateway.

(** Modelled from the spec: the three states of the circuit breaker. *)
Inductive breaker_state : Type := CLOSED | OPEN | HALF_OPEN.

(** Modelled from the spec: the failure threshold N, the sliding window
    the failures are counted in, and the cooldown interval. *)
Record config : Type := mk_config {
  threshold : nat;
  window : Z;
  cooldown : Z
}.

(** Modelled from the spec: the breaker's owned state, with the times of
    the consecutive failures seen while closed and the time it opened. *)
Record breaker : Type := mk_breaker {
  state : breaker_state;
  failures : list Z;
  opened_at : Z
}.

(** Modelled from the spec: the structured fields of a briefing request. *)
Record request : Type := mk_request {
  model_name : string;
  point_estimate : Q;
  confidence : Q;
  scope_label : string
}.

(** Modelled from the spec: what the external text-generation service
    does with a call. *)
Inductive service_outcome : Type :=
| NoReplyInTime
| ErrorStatus (code : Z)
| Malformed
| Interpretation (text : string).

(** Modelled from the spec: the failure reasons surfaced to the caller. *)
Inductive reason : Type :=
| GatewayTimeout
| GatewayUpstreamError
| GatewayMalformedResponse
| BreakerOpen.

(** Modelled from the spec: a briefing, or the fallback text with its
    reason code. *)
Inductive response : Type :=
| Briefing (text : string)
| Fallback (text : string) (why : reason).

(** Modelled from the spec: the deterministic fallback text, which states
    the degraded mode. *)
Definition fallback_text : string :=
  "AI briefing unavailable: the dashboard is running in degraded mode.".

(** Modelled from the spec: the result of one briefing call, with the
    calls made to the external service as a mock collaborator records them. *)
Record result : Type := mk_result {
  next : breaker;
  reply : response;
  external_calls : list request
}.

(** Modelled from the spec: OPEN becomes HALF_OPEN once the cooldown
    interval has elapsed. *)
Definition elapse (cfg : config) (now : Z) (b : breaker) : breaker :=
  match state b with
  | OPEN =>
      if cooldown cfg <=? now - opened_at b
      then mk_breaker HALF_OPEN [] (opened_at b)
      else b
  | _ => b
  end.

(** Modelled from the spec: a failure while CLOSED opens the breaker when
    it is the N-th consecutive failure within the window. *)
Definition record_failure (cfg : config) (now : Z) (b : breaker) : breaker :=
  let seen := now :: failures b in
  let recent := filter (fun t => now - t <? window cfg) seen in
  if Nat.leb (threshold cfg) (List.length recent)
  then mk_breaker OPEN [] now
  else mk_breaker CLOSED seen (opened_at b).

(** Modelled from the spec: one briefing call.  CLOSED passes the call
    through, OPEN short-circuits to the fallback, HALF_OPEN lets the call
    through as the probe that decides the next state. *)
Definition brief (cfg : config) (now : Z) (service : request -> service_outcome)
  (b : breaker) (req : request) : result :=
  match state b with
  | OPEN => mk_result b (Fallback fallback_text BreakerOpen) []
  | CLOSED =>
      match service req with
      | Interpretation text =>
          mk_result (mk_breaker CLOSED [] (opened_at b)) (Briefing text) [req]
      | NoReplyInTime =>
          mk_result (record_failure cfg now b)
            (Fallback fallback_text GatewayTimeout) [req]
      | ErrorStatus _ =>
          mk_result (record_failure cfg now b)
            (Fallback fallback_text GatewayUpstreamError) [req]
      | Malformed =>
          mk_result (record_failure cfg now b)
            (Fallback fallback_text GatewayMalformedResponse) [req]
      end
  | HALF_OPEN =>
      match service req with
      | Interpretation text =>
          mk_result (mk_breaker CLOSED [] (opened_at b)) (Briefing text) [req]
      | NoReplyInTime =>
          mk_result (mk_breaker OPEN [] now)
            (Fallback fallback_text GatewayTimeout) [req]
      | ErrorStatus _ =>
          mk_result (mk_breaker OPEN [] now)
            (Fallback fallback_text GatewayUpstreamError) [req]
      | Malformed =>
          mk_result (mk_breaker OPEN [] now)
            (Fallback fallback_text GatewayMalformedResponse) [req]
      end
  end.

End Gateway.

(* ================================================================== *)
(** * Vocabulary of the statements *)

(** The distinct elements of a list, each at its first occurrence. *)
Fixpoint first_seen (ks : list string) : list string :=
  match ks with
  | [] => []
  | k :: ks' => k :: filter (fun k' => negb (String.eqb k' k)) (first_seen ks')
  end.

(** The names that become own properties of an accumulator: the first
    occurrences of the keys that [Object.prototype] does not define. *)
Definition own_names (ks : list string) : list string :=
  first_seen (filter (fun k => negb (JsObject.inherited k)) ks).

Definition sum_over (f : Raw.t -> Z) (rs : list Raw.t) : Z :=
  fold_right (fun r s => f r + s) 0 rs.

(** The records filed under key [k]. *)
Definition filed (key : Raw.t -> string) (k : string) (rs : list Raw.t)
  : list Raw.t :=
  filter (fun r => String.eqb (key r) k) rs.

(** The bucket a record falls in: its date, or ['N/A']. *)
Definition date_key (r : Raw.t) : string := or_string (Raw.date r) "N/A".

(** The group a record falls in: its value of the dimension, or ["Unknown"]. *)
Definition group_key (pivotX : dimension) (r : Raw.t) : string :=
  or_string (dimension_of pivotX r) "Unknown".

(** The point of the time series for date key [k]. *)
Definition trend_point (rs : list Raw.t) (k : string) : Trend.point :=
  Trend.mk k
    (sum_over (fun r => or_zero (Raw.total_updates r)) (filed date_key k rs))
    (sum_over (fun r => or_zero (Raw.total_enrolment r)) (filed date_key k rs)).

(** The pivot entry of group [k]. *)
Definition pivot_entry (pivotX : dimension) (pivotY : metric)
  (rs : list Raw.t) (k : string) : Pivot.entry :=
  Pivot.mk k
    (sum_over (fun r => or_zero (metric_of pivotY r)) (filed (group_key pivotX) k rs)).

(** The time of a date key, for keys that are dates. *)
Definition time_of (Date_parse_other : string -> option Z) (p : Trend.point) : Z :=
  match JsDate.parse Date_parse_other (Trend.date p) with
  | Some t => t
  | None => 0
  end.

Definition is_date (Date_parse_other : string -> option Z) (k : string) : bool :=
  match JsDate.parse Date_parse_other k with
  | Some _ => true
  | None => false
  end.


(** A comparator that subtracts a rank, as both comparators of the
    dashboard do on well-formed data, and the order it sorts into. *)
Section Rank.
Context {A : Type}.
Variable rank : A -> Z.

Definition by_rank (a b : A) : option Z := Some (rank a - rank b).

Definition rank_le (a b : A) : Prop := rank a <= rank b.

Definition rank_lt (a b : A) : Prop := rank a < rank b.
End Rank.

(** The shape both reducers share: file [curr] under its key, creating
    the group on first sight. *)
Section GroupStep.
Context {V : Type}.
Variable key : Raw.t -> string.
Variable init : string -> V.
Variable add : V -> Raw.t -> V.

Definition group_step (acc : JsObject.t V) (curr : Raw.t) : JsObject.t V :=
  let k := key curr in
  let acc :=
    if negb (JsObject.truthy_at acc k)
    then JsObject.define acc k (init k)
    else acc in
  JsObject.update acc k (fun v => add v curr).

Definition group_value (rs : list Raw.t) (k : string) : V :=
  fold_left add (filed key k rs) (init k).

Definition grouped (rs : list Raw.t) : JsObject.t V :=
  map (fun k => (k, group_value rs k)) (own_names (map key rs)).
End GroupStep.

(** The two reducers as instances of that shape, and the objects they
    build, written group by group. *)
Definition trend_init (k : string) : Trend.point := Trend.mk k 0 0.

Definition trend_add (p : Trend.point) (r : Raw.t) : Trend.point :=
  Trend.mk (Trend.date p)
           (Trend.updates p + or_zero (Raw.total_updates r))
           (Trend.enrolments p + or_zero (Raw.total_enrolment r)).

Definition pivot_init (k : string) : Pivot.entry := Pivot.mk k 0.

Definition pivot_add (pivotY : metric) (e : Pivot.entry) (r : Raw.t)
  : Pivot.entry :=
  Pivot.mk (Pivot.name e) (Pivot.value e + or_zero (metric_of pivotY r)).

Definition trend_groups (rs : list Raw.t) : JsObject.t Trend.point :=
  map (fun k => (k, trend_point rs k)) (own_names (map date_key rs)).

Definition pivot_groups (pivotX : dimension) (pivotY : metric)
  (rs : list Raw.t) : JsObject.t Pivot.entry :=
  map (fun k => (k, pivot_entry pivotX pivotY rs k))
      (own_names (map (group_key pivotX) rs)).

(** The groups of a pivot in first-seen order, and all of them ranked as
    [studioData] ranks them before it cuts the list. *)
Definition pivot_names (pivotX : dimension) (rs : list Raw.t) : list string :=
  own_names (map (group_key pivotX) rs).

Definition ranked (pivotX : dimension) (pivotY : metric) (rs : list Raw.t)
  : list Pivot.entry :=
  JsArray.sort by_value_desc
    (JsObject.Object_values (pivot_groups pivotX pivotY rs)).



(** ** Sample data *)

(** A record with a date and its two counts. *)
Definition dated (d : option string) (u e : Z) : Raw.t :=
  Raw.mk d None None (Some u) (Some e) None None None.

(** A record of a district with its two counts. *)
Definition located (where_ : string) (u e : Z) : Raw.t :=
  Raw.mk None None (Some where_) (Some u) (Some e) None None None.

Definition three_days : list Raw.t :=
  [ dated (Some "2025-01-02") 5 1;
    dated (Some "2025-01-01") 7 2;
    dated (Some "2025-01-02") 1 1 ].



(** Two districts whose names are integers, the larger one first. *)
Definition numbered_districts : list Raw.t :=
  [ located "2" 5 0; located "1" 5 0 ].

(** Fifteen districts: the second and third tie, the last outweighs all,
    and the first comes back in a sixteenth record. *)
Definition fifteen_districts : list Raw.t :=
  [ located "Udupi" 40 1; located "Mysuru" 40 2; located "Hassan" 40 3;
    located "Bidar" 12 0; located "Kolar" 11 0; located "Gadag" 10 0;
    located "Haveri" 9 0; located "Koppal" 8 0; located "Raichur" 7 0;
    located "Tumakuru" 6 0; located "Mandya" 5 0; located "Kodagu" 4 0;
    located "Yadgir" 3 0; located "Ballari" 2 0; located "Bengaluru" 90 5;
    located "Udupi" 1 1 ].

(** A dashboard that has loaded nothing yet, a backend that does not
    answer in time, and one that answers with an empty object. *)
Definition idle : App.state Z :=
  App.mk_state [] Js.Null None "SYSTEM ONLINE" "XGBoost" (Js.Str "") false
    By_district Total_updates None.

(** The dashboard once both predictions have arrived. *)
Definition ready : App.state Z :=
  App.mk_state [] Js.Null
    (Some (Prediction.mk
             (Some (Prediction.mk_entry (Js.Str "2") (Js.Num 1)))
             (Some (Prediction.mk_entry (Js.Str "3") (Js.Num 0)))))
    "SYSTEM ONLINE" "RandomForest" (Js.Str "") false
    By_district Total_updates None.

Definition silent_backend : string -> App.request Z -> App.reply Z :=
  fun _ _ => App.Rejected Js.Timeout.


(** The last point of a series with the forecast fields the chart gives
    it, and the forecast node. *)
Definition with_forecast {num : Type} {engine : Js.Engine num}
  (d : Trend.point) : Chart.point num :=
  Chart.mk (Trend.date d) (Some (Trend.updates d)) (Some (Trend.enrolments d))
    (Some (Js.Num (Js.of_Z (Trend.updates d))))
    (Some (Js.Num (Js.of_Z (Trend.updates d)))).

Definition forecast_node {num : Type} {engine : Js.Engine num}
  (xgb rf : Prediction.entry num) : Chart.point num :=
  Chart.mk "Next Cycle (Est)" None None
    (Some (Js.times (Js.parseFloat (Prediction.val xgb))
                    (Js.Num (Js.of_Z 1000000))))
    (Some (Js.times (Js.parseFloat (Prediction.val rf))
                    (Js.Num (Js.of_Z 1000000)))).


(* ================================================================== *)
(** * The rest of the component: loading, upload, selection, display *)

(** The effects of [App] other than [generateBriefing]: the two loading
    effects and the upload handler.  Their world records, beside the
    hooks, every request made, what was written to the console and the
    timers set. *)
Module Page.

(** How a request ends: a rejection, or a 2xx response with its body. *)
Inductive outcome (A : Type) : Type :=
| Failed (why : Js.rejection)
| Done (data : A).
Arguments Failed {A} why.
Arguments Done {A} data.

(** A file of the file input. *)
Record file : Type := mk_file { file_name : string; file_size : N }.

(** The value [formData.append('file', file)] stores: the file, or the
    text of what was passed when it is no file. *)
Inductive form_value : Type :=
| Blob (f : file)
| Text (s : string).

Inductive call : Type :=
| Get (url : string)
| PostForm (url : string) (field : string) (v : form_value).

(** [() => window.location.reload()] *)
Inductive task : Type := Reload.

(** What the backend answers to the four requests of this part.  A body
    that is [null] or empty is [None]. *)
Record backend (num : Type) : Type := mk_backend {
  summary : outcome (option (list Raw.t));
  governance_indices : outcome (Js.value num);
  model_comparison : outcome (option (Prediction.details num));
  upload_data : form_value -> outcome unit
}.
Arguments mk_backend {num}.
Arguments summary {num} b.
Arguments governance_indices {num} b.
Arguments model_comparison {num} b.
Arguments upload_data {num} b.

Record world (num : Type) : Type := mk_world {
  hooks : App.state num;
  calls : list call;
  console : list string;
  timers : list (Z * task)
}.
Arguments mk_world {num}.
Arguments hooks {num} w.
Arguments calls {num} w.
Arguments console {num} w.
Arguments timers {num} w.

Section Effects.
Context {num : Type}.

Definition M (A : Type) : Type := world num -> Js.completion A * world num.

Definition ret {A : Type} (a : A) : M A := fun w => (Js.Normal a, w).

Definition bind {A B : Type} (m : M A) (k : A -> M B) : M B :=
  fun w =>
    match m w with
    | (Js.Normal a, w') => k a w'
    | (Js.Throw e, w') => (Js.Throw e, w')
    end.

(** [try { body } catch (err) { handler }] *)
Definition try_catch (body : M unit) (handler : Js.exn -> M unit) : M unit :=
  fun w =>
    match body w with
    | (Js.Normal a, w') => (Js.Normal a, w')
    | (Js.Throw e, w') => handler e w'
    end.

Definition set_hooks (f : App.state num -> App.state num) : M unit :=
  fun w =>
    (Js.Normal tt, mk_world (f (hooks w)) (calls w) (console w) (timers w)).

Definition setRawData (v : list Raw.t) : M unit :=
  set_hooks (fun s =>
    App.mk_state v (App.governanceData s) (App.predictionDetails s)
      (App.status s) (App.activeModel s) (App.aiBriefing s)
      (App.isAiLoading s) (App.pivotX s) (App.pivotY s) (App.uploadStatus s)).

Definition setGovernanceData (v : Js.value num) : M unit :=
  set_hooks (fun s =>
    App.mk_state (App.rawData s) v (App.predictionDetails s)
      (App.status s) (App.activeModel s) (App.aiBriefing s)
      (App.isAiLoading s) (App.pivotX s) (App.pivotY s) (App.uploadStatus s)).

Definition setPredictionDetails (v : option (Prediction.details num)) : M unit :=
  set_hooks (fun s =>
    App.mk_state (App.rawData s) (App.governanceData s) v
      (App.status s) (App.activeModel s) (App.aiBriefing s)
      (App.isAiLoading s) (App.pivotX s) (App.pivotY s) (App.uploadStatus s)).

Definition setStatus (v : string) : M unit :=
  set_hooks (fun s =>
    App.mk_state (App.rawData s) (App.governanceData s) (App.predictionDetails s)
      v (App.activeModel s) (App.aiBriefing s)
      (App.isAiLoading s) (App.pivotX s) (App.pivotY s) (App.uploadStatus s)).

Definition setUploadStatus (v : string) : M unit :=
  set_hooks (fun s =>
    App.mk_state (App.rawData s) (App.governanceData s) (App.predictionDetails s)
      (App.status s) (App.activeModel s) (App.aiBriefing s)
      (App.isAiLoading s) (App.pivotX s) (App.pivotY s) (Some v)).

(** [await axios.get(url)], giving [res.data]; the request is on its way
    as soon as [axios.get] is called. *)
Definition axios_get {A : Type} (url : string) (reply : outcome A) : M A :=
  fun w =>
    let w' := mk_world (hooks w) (calls w ++ [Get url]) (console w) (timers w) in
    match reply with
    | Failed why => (Js.Throw (Js.AxiosError why), w')
    | Done data => (Js.Normal data, w')
    end.

(** [await axios.post(url, formData)] for a form of one field. *)
Definition axios_post_form (url field : string) (v : form_value)
  (reply : outcome unit) : M unit :=
  fun w =>
    let w' :=
      mk_world (hooks w) (calls w ++ [PostForm url field v]) (console w)
        (timers w) in
    match reply with
    | Failed why => (Js.Throw (Js.AxiosError why), w')
    | Done data => (Js.Normal data, w')
    end.

(** [await Promise.all([a, b])]: both are started, and the whole rejects
    when one of them does. *)
Definition Promise_all {A B : Type} (a : M A) (b : M B) : M (A * B) :=
  fun w =>
    let (ra, w1) := a w in
    let (rb, w2) := b w1 in
    match ra, rb with
    | Js.Normal x, Js.Normal y => (Js.Normal (x, y), w2)
    | Js.Throw e, _ => (Js.Throw e, w2)
    | _, Js.Throw e => (Js.Throw e, w2)
    end.

Definition console_error (message : string) : M unit :=
  fun w =>
    (Js.Normal tt,
     mk_world (hooks w) (calls w) (console w ++ [message]) (timers w)).

Definition setTimeout (t : task) (delay : Z) : M unit :=
  fun w =>
    (Js.Normal tt,
     mk_world (hooks w) (calls w) (console w) (timers w ++ [(delay, t)])).

Definition api (path : string) : string :=
  ("https://aadhaar-drishti.onrender.com/api/" ++ path)%string.

Variable server : backend num.

(** The first effect: [init]. *)
Definition init : M unit :=
  try_catch
    (bind (axios_get (api "summary") (summary server)) (fun data =>
     bind (setRawData (match data with Some l => l | None => [] end)) (fun _ =>
     setStatus "SYSTEM ONLINE")))
    (fun err => setStatus "CONNECTION ERROR").

Definition fetchAnalytics : M unit :=
  try_catch
    (bind (Promise_all
             (axios_get (api "governance-indices") (governance_indices server))
             (axios_get (api "model-comparison") (model_comparison server)))
       (fun res =>
     bind (setGovernanceData (fst res)) (fun _ =>
     setPredictionDetails (snd res))))
    (fun err => console_error "Deep analytics sync failed").

(** The second effect, run with the [rawData] of the render it belongs to. *)
Definition analytics_effect (rawData : list Raw.t) : M unit :=
  match rawData with
  | [] => ret tt
  | _ :: _ => fetchAnalytics
  end.

(** Mounting the component: [init] runs; the second effect finds no
    records at first and runs again with the records [init] has set.
    (When [init] fails [rawData] is as it was and the effect does not run
    again; on the initial hooks it would find no records either.) *)
Definition mount : M unit :=
  bind (analytics_effect []) (fun _ =>
  bind init (fun _ =>
  fun w => analytics_effect (App.rawData (hooks w)) w)).

(** [handleFileUpload], for the files of the input that changed. *)
Definition handleFileUpload (files : list file) : M unit :=
  let formData :=
    match nth_error files 0 with
    | Some f => Blob f
    | None => Text "undefined"
    end in
  bind (setUploadStatus "Ingesting...") (fun _ =>
  try_catch
    (bind (axios_post_form (api "upload-data") "file" formData
             (upload_data server formData)) (fun _ =>
     bind (setUploadStatus "Ingestion Complete") (fun _ =>
     setTimeout Reload 1500)))
    (fun err => setUploadStatus "Ingestion Failed")).
End Effects.

(** The hooks as [useState] creates them.  An array is an object whose
    properties are its indices; the empty array has none. *)
Definition initial {num : Type} : App.state num :=
  App.mk_state [] (Js.Object []) None "INITIALIZING" "XGBoost" (Js.Str "")
    false By_district Total_updates None.

Definition fresh {num : Type} : world num := mk_world initial [] [] [].

End Page.

(** The Prediction Lab: the two model buttons, and [generateBriefing] cut
    at its [await]. *)
Module Lab.
Section Lab.
Context {num : Type} {engine : Js.Engine num}.

Definition setActiveModel (v : string) : @App.M num unit :=
  fun w =>
    let s := App.hooks w in
    (Js.Normal tt,
     App.mk_world
       (App.mk_state (App.rawData s) (App.governanceData s)
          (App.predictionDetails s) (App.status s) v (App.aiBriefing s)
          (App.isAiLoading s) (App.pivotX s) (App.pivotY s)
          (App.uploadStatus s))
       (App.posted w)).

(** [() => {setActiveModel(name); setAiBriefing("");}] *)
Definition select_model (name : string) : @App.M num unit :=
  App.bind (setActiveModel name) (fun _ => App.setAiBriefing (Js.Str "")).

(** [generateBriefing] up to its [await]: the request is on its way. *)
Definition briefing_sent (s : App.state num) : @App.M num (App.request num) :=
  App.bind (App.setIsAiLoading true) (fun _ =>
  fun w =>
    (Js.Normal (App.briefing_request s),
     App.mk_world (App.hooks w)
       (App.posted w ++ [(App.ai_interpret, App.briefing_request s)]))).

(** [generateBriefing] from its [await] on, once the reply is there. *)
Definition briefing_settled (reply : App.reply num) : @App.M num unit :=
  App.try_catch_finally
    (App.bind
       (match reply with
        | App.Rejected why => App.lift (Js.Throw (Js.AxiosError why))
        | App.Resolved data => App.ret data
        end) (fun data =>
     App.bind (App.lift (Js.get data "interpretation")) (fun interpretation =>
     App.setAiBriefing interpretation)))
    (fun err => App.setAiBriefing (Js.Str App.failed_text))
    (App.setIsAiLoading false).
End Lab.
End Lab.

(** What the page shows of the state. *)
Module View.

(** [s.toLowerCase()] on the letters A to Z. *)
Definition lower (c : ascii) : ascii :=
  let n := N_of_ascii c in
  if ((65 <=? n) && (n <=? 90))%N then ascii_of_N (n + 32) else c.

Fixpoint toLowerCase (s : string) : string :=
  match s with
  | EmptyString => EmptyString
  | String c s' => String (lower c) (toLowerCase s')
  end.

(** [s.replace(pattern, replacement)] with a string pattern: the first
    occurrence only. *)
Fixpoint replace (pattern replacement s : string) : string :=
  if String.prefix pattern s
  then (replacement ++ String.substring (String.length pattern)
                         (String.length s - String.length pattern) s)%string
  else match s with
       | EmptyString => EmptyString
       | String c s' => String c (replace pattern replacement s')
       end.

Section View.
Context {num : Type} {engine : Js.Engine num}.

(** The loader replaces the page while [status === "INITIALIZING"]. *)
Definition loader_shown (s : App.state num) : bool :=
  String.eqb (App.status s) "INITIALIZING".

(** The status badge is green when [status === "SYSTEM ONLINE"]. *)
Definition badge_success (s : App.state num) : bool :=
  String.eqb (App.status s) "SYSTEM ONLINE".

(** [{aiBriefing && (...)}] *)
Definition briefing_shown (s : App.state num) : bool :=
  Js.truthy (App.aiBriefing s).

(** [predictionDetails?.[activeModel.toLowerCase().replace('forest', '_forest')]] *)
Definition lab_entry (s : App.state num) : option (Prediction.entry num) :=
  let key := replace "forest" "_forest" (toLowerCase (App.activeModel s)) in
  match App.predictionDetails s with
  | Some d => Prediction.at_key d key
  | None => None
  end.

(** The projected volume of the Prediction Lab. *)
Definition lab_volume (s : App.state num) : Js.value num :=
  Js.or_else (App.val_of (lab_entry s)) (Js.Str "---").

(** The confidence line of the Prediction Lab. *)
Definition lab_confidence (s : App.state num) : string :=
  if Js.truthy (App.confidence_of (lab_entry s))
  then (Js.number_toFixed
          (Js.times (Js.ToNumber (App.confidence_of (lab_entry s)))
                    (Js.Num (Js.of_Z 100))) 1 ++ "%")%string
  else "---".

(** The Model Confidence card. *)
Definition card_confidence (s : App.state num) : string :=
  (Js.number_toFixed
     (Js.times (Js.ToNumber (App.confidence_of (App.currentPred s)))
               (Js.Num (Js.of_Z 100))) 1 ++ "%")%string.
End View.
End View.

(** ** Vocabulary of the further statements *)

Definition sumZ (l : list Z) : Z := fold_right Z.add 0 l.

(** The records whose key makes a group. *)
Definition grouping (key : Raw.t -> string) (rs : list Raw.t) : list Raw.t :=
  filter (fun r => negb (JsObject.inherited (key r))) rs.

(** What a chart point shows of a point of the series. *)
Definition plain {num : Type} (p : Chart.point num)
  : string * option Z * option Z :=
  (Chart.date p, Chart.updates p, Chart.enrolments p).

Definition plain_trend (d : Trend.point) : string * option Z * option Z :=
  (Trend.date d, Some (Trend.updates d), Some (Trend.enrolments d)).

(** A backend that is down, and one that serves two records and both
    analytics. *)
Definition backend_down : Page.backend Z :=
  Page.mk_backend (Page.Failed Js.NetworkError) (Page.Failed Js.NetworkError)
    (Page.Failed Js.NetworkError) (fun _ => Page.Failed Js.NetworkError).

Definition backend_up : Page.backend Z :=
  Page.mk_backend
    (Page.Done (Some three_days))
    (Page.Done (Js.Object [("0", Js.Object [("subject", Js.Str "Coverage")])]))
    (Page.Done (App.predictionDetails ready))
    (fun _ => Page.Done tt).

(** Records that carry age bands only, one of them without any. *)
Definition aged (a b c : Z) : Raw.t :=
  Raw.mk None None None None None (Some a) (Some b) (Some c).

Definition three_households : list Raw.t :=
  [ aged 1 2 3; Raw.mk None None None None None None (Some 4) None; aged 5 0 6 ].

(** The counts [f] of a record set add up exactly in the code's
    arithmetic: they are not negative and their sum is at most 2^53, so
    every running sum the reducers form is an integer that a double
    holds and no addition rounds. *)
Definition exact_sum (f : Raw.t -> Z) (rs : list Raw.t) : Prop :=
  (forall r, In r rs -> 0 <= f r) /\ sum_over f rs <= 2 ^ 53.

(** The three reducers with the addition left open: [plus] stands for
    the [+] of the engine on counts.  An addition is exact up to 2^53
    when it gives the integer sum of two non-negative integers whose sum
    is at most 2^53, as the addition of doubles does. *)
Section EngineSums.
Variable plus : Z -> Z -> Z.

Definition exact_to_2_53 : Prop :=
  forall a b, 0 <= a -> 0 <= b -> a + b <= 2 ^ 53 -> plus a b = a + b.

Definition trend_add_with (p : Trend.point) (r : Raw.t) : Trend.point :=
  Trend.mk (Trend.date p)
           (plus (Trend.updates p) (or_zero (Raw.total_updates r)))
           (plus (Trend.enrolments p) (or_zero (Raw.total_enrolment r))).

Definition pivot_add_with (pivotY : metric) (e : Pivot.entry) (r : Raw.t)
  : Pivot.entry :=
  Pivot.mk (Pivot.name e) (plus (Pivot.value e) (or_zero (metric_of pivotY r))).

Definition demographic_reducer_with (acc : Demographic.totals) (curr : Raw.t)
  : Demographic.totals :=
  Demographic.mk_totals
    (plus (Demographic.infants acc) (or_zero (Raw.age_0_5 curr)))
    (plus (Demographic.students acc) (or_zero (Raw.age_5_17 curr)))
    (plus (Demographic.adults acc) (or_zero (Raw.age_18_greater curr))).
End EngineSums.

(* ================================================================== *)
(** * Facts about the sort *)

Section SortFacts.
Context {A : Type}.
Variable comparefn : A -> A -> option Z.

Lemma insert_perm (x : A) (l : list A) :
  Permutation (JsArray.insert comparefn x l) (x :: l).
Proof.
  induction l as [|y l IH]; simpl.
  - apply Permutation_refl.
  - destruct (JsArray.after comparefn x y).
    + eapply perm_trans; [apply perm_skip, IH | apply perm_swap].
    + apply Permutation_refl.
Qed.

Lemma sort_perm (l : list A) : Permutation (JsArray.sort comparefn l) l.
Proof.
  induction l as [|x l IH]; simpl.
  - constructor.
  - eapply perm_trans; [apply insert_perm | now apply perm_skip].
Qed.

Lemma sort_length (l : list A) :
  List.length (JsArray.sort comparefn l) = List.length l.
Proof. apply Permutation_length, sort_perm. Qed.

Lemma sort_In (l : list A) (x : A) :
  In x (JsArray.sort comparefn l) <-> In x l.
Proof.
  split; apply Permutation_in; [|apply Permutation_sym]; apply sort_perm.
Qed.

(** The sort only looks at the comparator on the elements of the list. *)
Lemma insert_ext (other : A -> A -> option Z) (x : A) (l : list A) :
  (forall y, In y l -> comparefn x y = other x y) ->
  JsArray.insert comparefn x l = JsArray.insert other x l.
Proof.
  induction l as [|y l IH]; intros H; simpl; [reflexivity|].
  unfold JsArray.after. rewrite (H y (or_introl eq_refl)).
  rewrite IH; [reflexivity|]. intros z Hz. apply H. now right.
Qed.

Lemma sort_ext (other : A -> A -> option Z) (l : list A) :
  (forall x y, In x l -> In y l -> comparefn x y = other x y) ->
  JsArray.sort comparefn l = JsArray.sort other l.
Proof.
  induction l as [|x l IH]; intros H; simpl; [reflexivity|].
  rewrite <- IH by (intros; apply H; now right).
  apply insert_ext. intros y Hy. apply H; [now left|].
  right. exact (proj1 (sort_In l y) Hy).
Qed.
End SortFacts.

Section RankedSort.
Context {A : Type}.
Variable rank : A -> Z.

Lemma insert_sorted (x : A) (l : list A) :
  StronglySorted (rank_le rank) l ->
  StronglySorted (rank_le rank) (JsArray.insert (by_rank rank) x l).
Proof.
  induction 1 as [|y l Hs IH Hall]; simpl.
  - repeat constructor.
  - unfold JsArray.after, by_rank. destruct (0 <? rank x - rank y) eqn:E.
    + apply Z.ltb_lt in E. constructor; [exact IH|].
      apply (Permutation_Forall (Permutation_sym (insert_perm (by_rank rank) x l))).
      constructor; [unfold rank_le; lia | exact Hall].
    + apply Z.ltb_ge in E. constructor; [now constructor|].
      constructor; [unfold rank_le; lia|].
      eapply Forall_impl; [|exact Hall]. unfold rank_le. intros; lia.
Qed.

Lemma sort_sorted (l : list A) :
  StronglySorted (rank_le rank) (JsArray.sort (by_rank rank) l).
Proof.
  induction l as [|x l IH]; simpl; [constructor | now apply insert_sorted].
Qed.


End RankedSort.

(* ================================================================== *)
(** * Facts about first occurrences *)

Lemma eqb_sym (a b : string) : String.eqb a b = String.eqb b a.
Proof.
  destruct (String.eqb_spec a b) as [->|H].
  - now rewrite String.eqb_refl.
  - symmetry. apply String.eqb_neq. congruence.
Qed.

Lemma existsb_eqb_In (k : string) (l : list string) :
  existsb (String.eqb k) l = true <-> In k l.
Proof.
  rewrite existsb_exists. split.
  - intros [x [Hin Heq]]. apply String.eqb_eq in Heq. now subst.
  - intros Hin. exists k. split; [exact Hin | apply String.eqb_refl].
Qed.

Lemma existsb_eqb_notIn (k : string) (l : list string) :
  existsb (String.eqb k) l = false <-> ~ In k l.
Proof.
  rewrite <- existsb_eqb_In. now destruct (existsb (String.eqb k) l).
Qed.

Lemma first_seen_In (k : string) (l : list string) :
  In k (first_seen l) <-> In k l.
Proof.
  induction l as [|a l IH]; simpl; [tauto|].
  rewrite filter_In, IH. destruct (String.eqb_spec k a) as [->|Hne].
  - tauto.
  - split; [tauto|]. intros [H|H]; [congruence | right; now split].
Qed.

Lemma first_seen_NoDup (l : list string) : NoDup (first_seen l).
Proof.
  induction l as [|a l IH]; simpl; constructor.
  - rewrite filter_In. intros [_ H]. now rewrite String.eqb_refl in H.
  - now apply NoDup_filter.
Qed.

Lemma first_seen_snoc (l : list string) (k : string) :
  first_seen (l ++ [k])
  = if existsb (String.eqb k) l then first_seen l else first_seen l ++ [k].
Proof.
  induction l as [|a l IH]; simpl; [reflexivity|].
  rewrite IH. destruct (String.eqb_spec k a) as [->|Hne]; simpl.
  - destruct (existsb (String.eqb a) l); [reflexivity|].
    rewrite filter_app. simpl. rewrite String.eqb_refl. simpl.
    now rewrite app_nil_r.
  - destruct (existsb (String.eqb k) l); [reflexivity|].
    rewrite filter_app. simpl.
    destruct (String.eqb_spec k a); [congruence | reflexivity].
Qed.

Lemma own_names_In (k : string) (ks : list string) :
  In k (own_names ks) <-> In k ks /\ JsObject.inherited k = false.
Proof.
  unfold own_names. rewrite first_seen_In, filter_In.
  now rewrite negb_true_iff.
Qed.

Lemma own_names_NoDup (ks : list string) : NoDup (own_names ks).
Proof. apply first_seen_NoDup. Qed.

Lemma own_names_snoc (ks : list string) (k : string) :
  own_names (ks ++ [k])
  = if JsObject.inherited k then own_names ks
    else if existsb (String.eqb k) (own_names ks) then own_names ks
         else own_names ks ++ [k].
Proof.
  unfold own_names. rewrite filter_app. simpl.
  destruct (JsObject.inherited k) eqn:Hi; simpl.
  - now rewrite app_nil_r.
  - rewrite first_seen_snoc.
    set (l := filter (fun k0 => negb (JsObject.inherited k0)) ks).
    destruct (existsb (String.eqb k) l) eqn:E.
    + apply existsb_eqb_In in E. apply (first_seen_In k l) in E.
      apply existsb_eqb_In in E. now rewrite E.
    + apply existsb_eqb_notIn in E.
      assert (E' : ~ In k (first_seen l)) by now rewrite first_seen_In.
      apply existsb_eqb_notIn in E'. now rewrite E'.
Qed.

(* ================================================================== *)
(** * The accumulator of a reduce is the grouping of the records *)

Section GroupFacts.
Context {V : Type}.
Variable key : Raw.t -> string.
Variable init : string -> V.
Variable add : V -> Raw.t -> V.

Lemma has_own_listed (g : string -> V) (names : list string) (k : string) :
  JsObject.has_own (map (fun n => (n, g n)) names) k
  = existsb (String.eqb k) names.
Proof.
  unfold JsObject.has_own.
  induction names as [|n names IH]; simpl; [reflexivity|].
  rewrite (eqb_sym k n). destruct (String.eqb n k); [reflexivity | exact IH].
Qed.

Lemma update_listed (g : string -> V) (f : V -> V) (names : list string)
  (k : string) :
  JsObject.update (map (fun n => (n, g n)) names) k f
  = map (fun n => (n, if String.eqb n k then f (g n) else g n)) names.
Proof.
  unfold JsObject.update. rewrite map_map. apply map_ext. intros n. simpl.
  now destruct (String.eqb n k).
Qed.

Lemma filed_snoc (k : string) (rs : list Raw.t) (r : Raw.t) :
  filed key k (rs ++ [r])
  = filed key k rs ++ (if String.eqb (key r) k then [r] else []).
Proof. unfold filed. rewrite filter_app. reflexivity. Qed.

Lemma filed_none (k : string) (rs : list Raw.t) :
  ~ In k (map key rs) -> filed key k rs = [].
Proof.
  unfold filed. induction rs as [|r rs IH]; simpl; intros H; [reflexivity|].
  destruct (String.eqb_spec (key r) k) as [E|E]; [tauto|]. apply IH. tauto.
Qed.

Lemma group_value_snoc (rs : list Raw.t) (r : Raw.t) (k : string) :
  group_value key init add (rs ++ [r]) k
  = if String.eqb k (key r)
    then add (group_value key init add rs k) r
    else group_value key init add rs k.
Proof.
  unfold group_value. rewrite filed_snoc, (eqb_sym k (key r)).
  destruct (String.eqb (key r) k).
  - now rewrite fold_left_app.
  - now rewrite app_nil_r.
Qed.

Lemma group_step_grouped (rs : list Raw.t) (r : Raw.t) :
  group_step key init add (grouped key init add rs) r
  = grouped key init add (rs ++ [r]).
Proof.
  unfold group_step, grouped, JsObject.truthy_at, JsObject.define.
  rewrite has_own_listed, (map_app key rs [r]).
  change (map key [r]) with [key r]. rewrite own_names_snoc.
  assert (Hupd :
    JsObject.update
      (map (fun k => (k, group_value key init add rs k))
           (own_names (map key rs)))
      (key r) (fun v => add v r)
    = map (fun k => (k, group_value key init add (rs ++ [r]) k))
          (own_names (map key rs))).
  { rewrite update_listed. apply map_ext. intros n.
    now rewrite group_value_snoc. }
  destruct (JsObject.inherited (key r)) eqn:Hi.
  - rewrite orb_true_r. simpl negb. cbv iota. exact Hupd.
  - rewrite orb_false_r.
    destruct (existsb (String.eqb (key r)) (own_names (map key rs))) eqn:E;
      simpl negb; cbv iota.
    + exact Hupd.
    + unfold JsObject.update in *. rewrite !map_app. rewrite Hupd.
      f_equal. simpl. rewrite String.eqb_refl. do 2 f_equal.
      rewrite group_value_snoc, String.eqb_refl. f_equal.
      unfold group_value. rewrite filed_none; [reflexivity|].
      apply existsb_eqb_notIn in E. intros Hin. apply E.
      apply own_names_In. now split.
Qed.

(** The object a reduce builds holds one group per key that is not a name
    of [Object.prototype], in order of first appearance, each with the
    fold of its own records. *)
Lemma fold_group_step (rs : list Raw.t) :
  fold_left (group_step key init add) rs JsObject.empty
  = grouped key init add rs.
Proof.
  induction rs as [|r rs IH] using rev_ind; [reflexivity|].
  rewrite fold_left_app. simpl. rewrite IH. apply group_step_grouped.
Qed.

Lemma grouped_names (rs : list Raw.t) :
  map fst (grouped key init add rs) = own_names (map key rs).
Proof.
  unfold grouped. rewrite map_map. simpl. apply map_id.
Qed.
End GroupFacts.

(* ================================================================== *)
(** * Facts about [Object.values] *)

Section ListFacts.
Context {A : Type}.

Lemma filter_perm (f : A -> bool) (l l' : list A) :
  Permutation l l' -> Permutation (filter f l) (filter f l').
Proof.
  induction 1 as [|x l l' _ IH|x y l|l l' l'' _ IH1 _ IH2]; simpl.
  - constructor.
  - destruct (f x); [now constructor | exact IH].
  - destruct (f x), (f y); try apply Permutation_refl. constructor.
  - now apply perm_trans with (filter f l').
Qed.

Lemma partition_perm (f : A -> bool) (l : list A) :
  Permutation (filter f l ++ filter (fun a => negb (f a)) l) l.
Proof.
  induction l as [|a l IH]; simpl; [constructor|].
  destruct (f a); simpl.
  - now constructor.
  - apply Permutation_sym. eapply perm_trans.
    + apply perm_skip, Permutation_sym, IH.
    + apply Permutation_middle.
Qed.


End ListFacts.

Section ObjectFacts.
Context {V : Type}.

Lemma insert_index_perm (n : N) (v : V) (l : list (N * V)) :
  Permutation (JsObject.insert_index n v l) ((n, v) :: l).
Proof.
  induction l as [|[m w] l IH]; simpl; [apply Permutation_refl|].
  destruct (n <=? m)%N; [apply Permutation_refl|].
  eapply perm_trans; [apply perm_skip, IH | apply perm_swap].
Qed.

Lemma indexed_perm (o : JsObject.t V) :
  Permutation (map snd (JsObject.indexed o))
              (map snd (filter (fun kv => JsObject.is_index (fst kv)) o)).
Proof.
  induction o as [|[k v] o IH]; simpl; [constructor|].
  unfold JsObject.is_index. destruct (JsObject.array_index k) as [n|]; simpl.
  - eapply perm_trans.
    + apply Permutation_map, insert_index_perm.
    + simpl. now constructor.
  - exact IH.
Qed.

(** [Object.values] lists every own property once. *)
Lemma Object_values_perm (o : JsObject.t V) :
  Permutation (JsObject.Object_values o) (map snd o).
Proof.
  unfold JsObject.Object_values, JsObject.named.
  eapply perm_trans.
  - apply Permutation_app_tail, indexed_perm.
  - rewrite <- map_app. apply Permutation_map, partition_perm.
Qed.



Lemma update_update (o : JsObject.t V) (k : string) (f g : V -> V) :
  JsObject.update (JsObject.update o k f) k g
  = JsObject.update o k (fun v => g (f v)).
Proof.
  unfold JsObject.update. rewrite map_map. apply map_ext. intros [n v].
  simpl. destruct (String.eqb n k) eqn:E; simpl; [now rewrite E | now rewrite E].
Qed.
End ObjectFacts.

(* ================================================================== *)
(** * The reducers of [trendData] and [studioData] *)

Lemma trend_reducer_step (acc : JsObject.t Trend.point) (curr : Raw.t) :
  trend_reducer acc curr = group_step date_key trend_init trend_add acc curr.
Proof.
  unfold trend_reducer, group_step. fold (date_key curr).
  now rewrite update_update.
Qed.

Lemma fold_left_ext {A B : Type} (f g : A -> B -> A) (l : list B) (a : A) :
  (forall x y, f x y = g x y) -> fold_left f l a = fold_left g l a.
Proof.
  intros H. revert a. induction l as [|b l IH]; intros a; simpl;
    [reflexivity|]. now rewrite H, IH.
Qed.

Lemma trend_sums (l : list Raw.t) (k : string) (u e : Z) :
  fold_left trend_add l (Trend.mk k u e)
  = Trend.mk k
      (u + sum_over (fun r => or_zero (Raw.total_updates r)) l)
      (e + sum_over (fun r => or_zero (Raw.total_enrolment r)) l).
Proof.
  revert u e. induction l as [|r l IH]; intros u e; simpl.
  - now rewrite !Z.add_0_r.
  - unfold trend_add at 2. simpl. rewrite IH. f_equal; lia.
Qed.

Lemma trend_fold (rs : list Raw.t) :
  fold_left trend_reducer rs JsObject.empty = trend_groups rs.
Proof.
  rewrite (fold_left_ext _ _ rs _ trend_reducer_step), fold_group_step.
  unfold grouped, trend_groups. apply map_ext. intros k.
  unfold group_value, trend_init, trend_point. now rewrite trend_sums.
Qed.

Lemma trendData_groups (other : string -> option Z) (rs : list Raw.t) :
  trendData other rs
  = JsArray.sort (by_date other) (JsObject.Object_values (trend_groups rs)).
Proof.
  destruct rs as [|r rs]; [reflexivity|].
  unfold trendData. now rewrite trend_fold.
Qed.

Lemma studio_reducer_step (pivotX : dimension) (pivotY : metric)
  (acc : JsObject.t Pivot.entry) (curr : Raw.t) :
  studio_reducer pivotX pivotY acc curr
  = group_step (group_key pivotX) pivot_init (pivot_add pivotY) acc curr.
Proof. reflexivity. Qed.

Lemma pivot_sums (pivotY : metric) (l : list Raw.t) (k : string) (v : Z) :
  fold_left (pivot_add pivotY) l (Pivot.mk k v)
  = Pivot.mk k (v + sum_over (fun r => or_zero (metric_of pivotY r)) l).
Proof.
  revert v. induction l as [|r l IH]; intros v; simpl.
  - now rewrite Z.add_0_r.
  - unfold pivot_add at 2. simpl. rewrite IH. f_equal; lia.
Qed.

Lemma studio_fold (pivotX : dimension) (pivotY : metric) (rs : list Raw.t) :
  fold_left (studio_reducer pivotX pivotY) rs JsObject.empty
  = pivot_groups pivotX pivotY rs.
Proof.
  rewrite (fold_left_ext _ _ rs _ (studio_reducer_step pivotX pivotY)).
  rewrite fold_group_step. unfold grouped, pivot_groups. apply map_ext.
  intros k. unfold group_value, pivot_init, pivot_entry.
  now rewrite pivot_sums.
Qed.

Lemma studioData_groups (rs : list Raw.t) (pivotX : dimension)
  (pivotY : metric) :
  studioData rs pivotX pivotY
  = firstn 12 (JsArray.sort by_value_desc
      (JsObject.Object_values (pivot_groups pivotX pivotY rs))).
Proof.
  destruct rs as [|r rs]; [reflexivity|].
  unfold studioData, JsArray.slice0. now rewrite studio_fold.
Qed.

(* ================================================================== *)
(** * The time series *)

Lemma trend_groups_values (rs : list Raw.t) :
  map snd (trend_groups rs)
  = map (trend_point rs) (own_names (map date_key rs)).
Proof. unfold trend_groups. now rewrite map_map. Qed.

Lemma trendData_perm (other : string -> option Z) (rs : list Raw.t) :
  Permutation (trendData other rs)
              (map (trend_point rs) (own_names (map date_key rs))).
Proof.
  rewrite trendData_groups, <- trend_groups_values.
  eapply perm_trans; [apply sort_perm | apply Object_values_perm].
Qed.

Lemma trend_point_dates (rs : list Raw.t) (names : list string) :
  map Trend.date (map (trend_point rs) names) = names.
Proof. rewrite map_map. simpl. apply map_id. Qed.

Lemma trendData_dates (other : string -> option Z) (rs : list Raw.t)
  (p : Trend.point) :
  In p (trendData other rs) ->
  exists r, In r rs /\ JsObject.inherited (date_key r) = false
            /\ p = trend_point rs (date_key r).
Proof.
  intros Hp. apply (Permutation_in _ (trendData_perm other rs)) in Hp.
  apply in_map_iff in Hp. destruct Hp as [k [<- Hk]].
  apply own_names_In in Hk. destruct Hk as [Hk Hi].
  apply in_map_iff in Hk. destruct Hk as [r [<- Hr]]. now exists r.
Qed.

(** A list sorted by rank whose elements of equal rank coincide under a
    labelling without repetition is strictly sorted. *)
Lemma sorted_strict {A B : Type} (rank : A -> Z) (label : A -> B)
  (l : list A) :
  StronglySorted (rank_le rank) l ->
  NoDup (map label l) ->
  (forall a b, In a l -> In b l -> rank a = rank b -> label a = label b) ->
  StronglySorted (rank_lt rank) l.
Proof.
  induction 1 as [|a l Hs IH Hall]; intros Hnd Hinj; [constructor|].
  simpl in Hnd. apply NoDup_cons_iff in Hnd. destruct Hnd as [Hnotin Hnd].
  constructor.
  - apply IH; [exact Hnd|]. intros x y Hx Hy. apply Hinj; now right.
  - rewrite Forall_forall in *. intros b Hb. specialize (Hall b Hb).
    unfold rank_le in Hall. unfold rank_lt.
    destruct (Z.eq_dec (rank a) (rank b)) as [E|E]; [|lia].
    exfalso. apply Hnotin. rewrite (Hinj a b); [now apply in_map | now left
      | now right | exact E].
Qed.

Lemma by_date_rank (other : string -> option Z) (a b : Trend.point) :
  is_date other (Trend.date a) = true ->
  is_date other (Trend.date b) = true ->
  by_date other a b = by_rank (time_of other) a b.
Proof.
  unfold is_date, by_date, by_rank, time_of, JsDate.minus.
  destruct (JsDate.parse other (Trend.date a)); [|discriminate].
  destruct (JsDate.parse other (Trend.date b)); [|discriminate].
  reflexivity.
Qed.

Lemma trendData_ranked (other : string -> option Z) (rs : list Raw.t) :
  (forall r, In r rs -> is_date other (date_key r) = true) ->
  trendData other rs
  = JsArray.sort (by_rank (time_of other))
      (JsObject.Object_values (trend_groups rs)).
Proof.
  intros Hd. rewrite trendData_groups. apply sort_ext.
  assert (Hin : forall p, In p (JsObject.Object_values (trend_groups rs)) ->
                          is_date other (Trend.date p) = true).
  { intros p Hp.
    apply (Permutation_in _ (Object_values_perm (trend_groups rs))) in Hp.
    rewrite trend_groups_values in Hp. apply in_map_iff in Hp.
    destruct Hp as [k [<- Hk]]. apply own_names_In in Hk.
    destruct Hk as [Hk _]. apply in_map_iff in Hk.
    destruct Hk as [r [<- Hr]]. simpl. now apply Hd. }
  intros x y Hx Hy. apply by_date_rank; now apply Hin.
Qed.





(* ================================================================== *)
(** * The bucket of the undated records *)







(* ================================================================== *)
(** * The pivot *)



Lemma pivot_groups_values (pivotX : dimension) (pivotY : metric)
  (rs : list Raw.t) :
  map snd (pivot_groups pivotX pivotY rs)
  = map (pivot_entry pivotX pivotY rs) (pivot_names pivotX rs).
Proof. unfold pivot_groups, pivot_names. now rewrite map_map. Qed.

Lemma pivot_names_In (pivotX : dimension) (rs : list Raw.t) (k : string) :
  In k (pivot_names pivotX rs) <->
  exists r, In r rs /\ group_key pivotX r = k /\ JsObject.inherited k = false.
Proof.
  unfold pivot_names. rewrite own_names_In, in_map_iff. split.
  - intros [[r [Hk Hr]] Hi]. now exists r.
  - intros [r [Hr [Hk Hi]]]. split; [now exists r | exact Hi].
Qed.



(** The ranking of the fifteen districts: the heaviest first, and the two
    that tie at 40 in the order of the records. *)
Example fifteen_districts_top :
  map Pivot.name (studioData fifteen_districts By_district Total_updates)
  = [ "Bengaluru"; "Udupi"; "Mysuru"; "Hassan"; "Bidar"; "Kolar"; "Gadag";
      "Haveri"; "Koppal"; "Raichur"; "Tumakuru"; "Mandya" ].
Proof. reflexivity. Qed.


(* ================================================================== *)
(** * The age bands *)

Lemma demographic_sums (l : list Raw.t) (a b c : Z) :
  fold_left demographic_reducer l (Demographic.mk_totals a b c)
  = Demographic.mk_totals
      (a + sum_over (fun r => or_zero (Raw.age_0_5 r)) l)
      (b + sum_over (fun r => or_zero (Raw.age_5_17 r)) l)
      (c + sum_over (fun r => or_zero (Raw.age_18_greater r)) l).
Proof.
  revert a b c. induction l as [|r l IH]; intros a b c; simpl.
  - now rewrite !Z.add_0_r.
  - unfold demographic_reducer at 2. simpl. rewrite IH. f_equal; lia.
Qed.



(* ================================================================== *)
(** * The chart series *)

Section ChartFacts.
Context {num : Type} {engine : Js.Engine num}.

Lemma map_from_last {A B : Type} (plain marked : A -> B) (n i : nat)
  (init : list A) (d : A) :
  n = (i + List.length init)%nat ->
  map_from (fun x j => if Nat.eqb j n then marked x else plain x) i
           (init ++ [d])
  = map plain init ++ [marked d].
Proof.
  revert i. induction init as [|a init IH]; intros i Hn; simpl in *.
  - replace (Nat.eqb i n) with true; [reflexivity|].
    symmetry. apply Nat.eqb_eq. lia.
  - replace (Nat.eqb i n) with false.
    + f_equal. apply IH. lia.
    + symmetry. apply Nat.eqb_neq. lia.
Qed.

(** With both entries at hand the chart is the marked history followed by
    the forecast node. *)
Lemma chartData_nodes (init : list Trend.point) (lastActual : Trend.point)
  (xgb rf : Prediction.entry num) :
  chartData (init ++ [lastActual]) (Some (Prediction.mk (Some xgb) (Some rf)))
  = Js.Normal (map Chart.of_trend init
               ++ [with_forecast lastActual]
               ++ [forecast_node xgb rf]).
Proof.
  assert (H : chartData (init ++ [lastActual])
                (Some (Prediction.mk (Some xgb) (Some rf)))
              = Js.Normal
                  (map_indexed (fun d i =>
                     if Nat.eqb i (List.length (init ++ [lastActual]) - 1)%nat
                     then with_forecast d else Chart.of_trend d)
                     (init ++ [lastActual])
                   ++ [forecast_node xgb rf])).
  { destruct init; reflexivity. }
  rewrite H. unfold map_indexed.
  rewrite (map_from_last Chart.of_trend with_forecast).
  - now rewrite <- app_assoc.
  - rewrite length_app. simpl. lia.
Qed.

(** C9 (amended): when the prediction details hold the entries of both
    models and the series is not empty, the chart series is the time
    series with exactly one forecast node appended.  Every point but the
    last is carried over with its date, updates and enrolments and without
    forecast fields; the last point keeps them too and carries its own
    [updates] in both forecast fields; the node is dated
    "Next Cycle (Est)", has [null] for updates and enrolments, and its
    forecast values are the two models' [val]s read by [parseFloat] and
    multiplied by 1,000,000 ([NaN] when [parseFloat] gives [NaN]). *)
Theorem chartData_forecast (init : list Trend.point) (lastActual : Trend.point)
  (xgb rf : Prediction.entry num) :
  let scaled := fun v : Js.value num =>
    match Js.parseFloat v with
    | Js.NaN => Js.NaN
    | Js.Num x => Js.multiply x (Js.of_Z 1000000)
    end in
  chartData (init ++ [lastActual]) (Some (Prediction.mk (Some xgb) (Some rf)))
  = Js.Normal
      (map (fun d => Chart.mk (Trend.date d) (Some (Trend.updates d))
                       (Some (Trend.enrolments d)) None None) init
       ++ [Chart.mk (Trend.date lastActual)
             (Some (Trend.updates lastActual))
             (Some (Trend.enrolments lastActual))
             (Some (Js.Num (Js.of_Z (Trend.updates lastActual))))
             (Some (Js.Num (Js.of_Z (Trend.updates lastActual))))]
       ++ [Chart.mk "Next Cycle (Est)" None None
             (Some (scaled (Prediction.val xgb)))
             (Some (scaled (Prediction.val rf)))]).
Proof.
  cbv zeta. rewrite chartData_nodes.
  unfold with_forecast, forecast_node, Js.times, million, Chart.of_trend.
  reflexivity.
Qed.
End ChartFacts.

(** C9, counterexample: prediction details that are there but hold no
    entry (the body [{}]) make [chartData] throw on a series of one point
    instead of appending a node. *)
Lemma chartData_details_without_entries :
  chartData [Trend.mk "2025-01-01" 10 1]
    (Some (Prediction.mk (num := Z) None None))
  = Js.Throw Js.TypeError.
Proof. reflexivity. Qed.

(** The chart of two days with forecasts 2 and 3 (in millions). *)
Example chartData_two_days :
  chartData [Trend.mk "2025-01-01" 10 1; Trend.mk "2025-01-02" 20 2]
    (Some (Prediction.mk
             (Some (Prediction.mk_entry (Js.Number (Js.Num 2)) (Js.Num 1)))
             (Some (Prediction.mk_entry (Js.Str "3") (Js.Num 1)))))
  = Js.Normal
      [ Chart.mk "2025-01-01" (Some 10) (Some 1) None None;
        Chart.mk "2025-01-02" (Some 20) (Some 2)
          (Some (Js.Num 20)) (Some (Js.Num 20));
        Chart.mk "Next Cycle (Est)" None None
          (Some (Js.Num 2000000)) (Some (Js.Num 3000000)) ].
Proof. reflexivity. Qed.

(* ================================================================== *)
(** * [generateBriefing] *)

Section BriefingFacts.
Context {num : Type} {engine : Js.Engine num}.
Variable network : string -> App.request num -> App.reply num.

(** What a run of [generateBriefing] leaves in the briefing text. *)
Lemma generateBriefing_run (s : App.state num) (w : App.world num) :
  App.generateBriefing network s w
  = (Js.Normal tt,
     App.mk_world
       (App.mk_state
          (App.rawData (App.hooks w)) (App.governanceData (App.hooks w))
          (App.predictionDetails (App.hooks w)) (App.status (App.hooks w))
          (App.activeModel (App.hooks w))
          (match network App.ai_interpret (App.briefing_request s) with
           | App.Rejected _ => Js.Str App.failed_text
           | App.Resolved data =>
               match Js.get data "interpretation" with
               | Js.Normal v => v
               | Js.Throw _ => Js.Str App.failed_text
               end
           end)
          false
          (App.pivotX (App.hooks w)) (App.pivotY (App.hooks w))
          (App.uploadStatus (App.hooks w)))
       (App.posted w ++ [(App.ai_interpret, App.briefing_request s)])).
Proof.
  unfold App.generateBriefing, App.bind, App.try_catch_finally,
    App.axios_post, App.lift, App.setIsAiLoading, App.setAiBriefing.
  simpl.
  destruct (network App.ai_interpret (App.briefing_request s)) as [why|data];
    simpl; [reflexivity|].
  destruct (Js.get data "interpretation"); reflexivity.
Qed.


(** C4: a run of [generateBriefing], from any hook state and whatever the
    reply, changes the briefing text and the loading flag and nothing
    else: the records, the prediction details, the active model and the
    pivot selection stay as they were, and with them the time series, the
    pivot and the chart series. *)
Theorem generateBriefing_frame (s : App.state num) (w : App.world num)
  (other : string -> option Z) :
  let before := App.hooks w in
  let after := App.hooks (snd (App.generateBriefing network s w)) in
  after
  = App.mk_state
      (App.rawData before) (App.governanceData before)
      (App.predictionDetails before) (App.status before)
      (App.activeModel before)
      (App.aiBriefing after) (App.isAiLoading after)
      (App.pivotX before) (App.pivotY before) (App.uploadStatus before)
  /\ trendData other (App.rawData after) = trendData other (App.rawData before)
  /\ studioData (App.rawData after) (App.pivotX after) (App.pivotY after)
     = studioData (App.rawData before) (App.pivotX before) (App.pivotY before)
  /\ chartData (trendData other (App.rawData after))
               (App.predictionDetails after)
     = chartData (trendData other (App.rawData before))
                 (App.predictionDetails before)
  /\ demographicSplit (App.rawData after)
     = demographicSplit (App.rawData before)
  /\ App.activeModel after = App.activeModel before.
Proof.
  cbv zeta. rewrite generateBriefing_run. simpl. repeat split.
Qed.

(** C10: when the active model has no prediction entry, [generateBriefing]
    still posts one request to the interpretation endpoint, with the
    string ["N/A"] as volume and the string ["NaN%"] as confidence. *)
Theorem generateBriefing_without_prediction (s : App.state num) :
  App.currentPred s = None ->
  App.posted (snd (App.click network s))
  = [(App.ai_interpret,
      App.mk_request (App.activeModel s) (Js.Str "N/A") "NaN%"
        "National Strategic Grid")].
Proof.
  intros Hnone. unfold App.click. rewrite generateBriefing_run. simpl.
  unfold App.briefing_request. rewrite Hnone. reflexivity.
Qed.
End BriefingFacts.

Lemma generateBriefing_without_prediction_witness :
  App.currentPred idle = None
  /\ App.posted (snd (App.click silent_backend idle))
     = [(App.ai_interpret,
         App.mk_request "XGBoost" (Js.Str "N/A") "NaN%"
           "National Strategic Grid")].
Proof.
  split; [reflexivity|].
  apply (generateBriefing_without_prediction silent_backend idle).
  reflexivity.
Defined.


(** A backend that does not answer leaves the fallback text. *)
Example generateBriefing_timeout :
  App.aiBriefing (App.hooks (snd (App.click silent_backend idle)))
  = Js.Str "Strategic Briefing failed. Verify backend AI configuration.".
Proof. reflexivity. Qed.

(** With the prediction at hand the request carries its [val] and its
    confidence as a percentage. *)
Example briefing_request_ready :
  App.briefing_request ready
  = App.mk_request "RandomForest" (Js.Str "3") "0.0%" "National Strategic Grid"
  /\ App.briefing_request
       (App.mk_state [] Js.Null (App.predictionDetails ready) "SYSTEM ONLINE"
          "XGBoost" (Js.Str "") false By_district Total_updates None)
     = App.mk_request "XGBoost" (Js.Str "2") "100.0%" "National Strategic Grid".
Proof. split; reflexivity. Qed.

(* ================================================================== *)
(** * The arbiter's rule *)

Lemma Qle_bool_of_lt (x y : Q) : (x < y)%Q -> Qle_bool x y = true.
Proof. intros H. apply Qle_bool_iff. now apply Qlt_le_weak. Qed.

Lemma Qle_bool_of_gt (x y : Q) : (y < x)%Q -> Qle_bool x y = false.
Proof.
  intros H. destruct (Qle_bool x y) eqn:E; [|reflexivity].
  apply Qle_bool_iff in E. exfalso. exact (Qlt_not_le _ _ H E).
Qed.

(** C1: of two evaluated forecast results whose stability scores differ by
    more than the tolerance, the arbiter makes the one with the lower score
    the default, whatever their mean errors; when the scores are within the
    tolerance it makes the one with the lower mean error the default. *)
Theorem arbiter_prefers_stability (tol : Arbiter.tolerance)
  (a b : Arbiter.evaluated) :
  let x := Arbiter.stability a in
  let y := Arbiter.stability b in
  let chosen := Arbiter.default_of (Arbiter.decide tol (Some a) (Some b)) in
  (Arbiter.within tol x y = false ->
     ((x < y)%Q -> chosen = Some (Arbiter.name a))
     /\ ((y < x)%Q -> chosen = Some (Arbiter.name b)))
  /\ (Arbiter.within tol x y = true ->
     ((Arbiter.mean_error a < Arbiter.mean_error b)%Q ->
        chosen = Some (Arbiter.name a))
     /\ ((Arbiter.mean_error b < Arbiter.mean_error a)%Q ->
        chosen = Some (Arbiter.name b))).
Proof.
  cbv zeta. unfold Arbiter.decide. split; intros Hw; rewrite Hw; simpl.
  - split; intros H.
    + now rewrite (Qle_bool_of_lt _ _ H).
    + now rewrite (Qle_bool_of_gt _ _ H).
  - split; intros H.
    + now rewrite (Qle_bool_of_lt _ _ H).
    + now rewrite (Qle_bool_of_gt _ _ H).
Qed.

Lemma arbiter_prefers_stability_witness :
  Arbiter.default_of
    (Arbiter.decide (Arbiter.Relative (1 # 100))
       (Some (Arbiter.mk_evaluated Arbiter.RandomForest (4 # 1) (102 # 100)))
       (Some (Arbiter.mk_evaluated Arbiter.XGBoost (9 # 1) (1 # 1))))
  = Some Arbiter.RandomForest
  /\ Arbiter.default_of
       (Arbiter.decide (Arbiter.Relative (1 # 100))
          (Some (Arbiter.mk_evaluated Arbiter.RandomForest (1000 # 1) (3 # 1)))
          (Some (Arbiter.mk_evaluated Arbiter.XGBoost (1001 # 1) (2 # 1))))
     = Some Arbiter.XGBoost.
Proof.
  split.
  - apply (proj1 (proj1 (arbiter_prefers_stability (Arbiter.Relative (1 # 100))
             (Arbiter.mk_evaluated Arbiter.RandomForest (4 # 1) (102 # 100))
             (Arbiter.mk_evaluated Arbiter.XGBoost (9 # 1) (1 # 1)))
           eq_refl)).
    reflexivity.
  - apply (proj2 (proj2 (arbiter_prefers_stability (Arbiter.Relative (1 # 100))
             (Arbiter.mk_evaluated Arbiter.RandomForest (1000 # 1) (3 # 1))
             (Arbiter.mk_evaluated Arbiter.XGBoost (1001 # 1) (2 # 1)))
           eq_refl)).
    reflexivity.
Defined.

(* ================================================================== *)
(** * The open breaker *)

(** C2: while the breaker is OPEN a briefing call makes no call to the
    external service: it answers at once with the fallback text and the
    reason [BreakerOpen], and leaves the breaker as it is. *)
Theorem breaker_open_short_circuits (cfg : Gateway.config) (now : Z)
  (service : Gateway.request -> Gateway.service_outcome)
  (b : Gateway.breaker) (req : Gateway.request) :
  Gateway.state b = Gateway.OPEN ->
  Gateway.external_calls (Gateway.brief cfg now service b req) = []
  /\ Gateway.reply (Gateway.brief cfg now service b req)
     = Gateway.Fallback Gateway.fallback_text Gateway.BreakerOpen
  /\ Gateway.next (Gateway.brief cfg now service b req) = b.
Proof.
  intros Hopen. unfold Gateway.brief. rewrite Hopen. repeat split.
Qed.

Lemma breaker_open_short_circuits_witness :
  Gateway.external_calls
    (Gateway.brief (Gateway.mk_config 3 60000 30000) 1000
       (fun _ => Gateway.Interpretation "Volumes are rising.")
       (Gateway.mk_breaker Gateway.OPEN [] 0)
       (Gateway.mk_request "XGBoost" (245 # 100) (93 # 100)
          "National Strategic Grid"))
  = [].
Proof.
  apply (breaker_open_short_circuits (Gateway.mk_config 3 60000 30000) 1000
           (fun _ => Gateway.Interpretation "Volumes are rising.")
           (Gateway.mk_breaker Gateway.OPEN [] 0)
           (Gateway.mk_request "XGBoost" (245 # 100) (93 # 100)
              "National Strategic Grid")).
  reflexivity.
Defined.

(* ================================================================== *)
(** * Sums of counts that are not negative *)

Lemma sum_over_nonneg (f : Raw.t -> Z) (rs : list Raw.t) :
  (forall r, In r rs -> 0 <= f r) -> 0 <= sum_over f rs.
Proof.
  induction rs as [|r rs IH]; simpl; intros H; [lia|].
  pose proof (H r (or_introl eq_refl)).
  assert (0 <= sum_over f rs) by (apply IH; intros; apply H; now right). lia.
Qed.

Lemma sum_over_filter_le (f : Raw.t -> Z) (test : Raw.t -> bool)
  (rs : list Raw.t) :
  (forall r, In r rs -> 0 <= f r) ->
  sum_over f (filter test rs) <= sum_over f rs.
Proof.
  induction rs as [|r rs IH]; simpl; intros H; [lia|].
  pose proof (H r (or_introl eq_refl)).
  assert (sum_over f (filter test rs) <= sum_over f rs)
    by (apply IH; intros; apply H; now right).
  destruct (test r); simpl; lia.
Qed.

(* ================================================================== *)
(** * Counts that add up exactly *)

(** Under [exact_sum] the reducers form the same sums with any addition
    that is exact up to 2^53 as they do with the addition of integers. *)
Section ExactSums.
Variable plus : Z -> Z -> Z.
Hypothesis plus_exact : exact_to_2_53 plus.

Lemma exact_sum_filter (f : Raw.t -> Z) (test : Raw.t -> bool)
  (rs : list Raw.t) :
  exact_sum f rs -> exact_sum f (filter test rs).
Proof.
  intros [Hpos Hle]. split.
  - intros r Hr. apply Hpos. now apply filter_In in Hr.
  - pose proof (sum_over_filter_le f test rs Hpos). lia.
Qed.

(** A running sum formed with [plus] is the integer sum. *)
Lemma running_sum_exact (f : Raw.t -> Z) (l : list Raw.t) (a : Z) :
  (forall r, In r l -> 0 <= f r) ->
  0 <= a -> a + sum_over f l <= 2 ^ 53 ->
  fold_left (fun acc r => plus acc (f r)) l a = a + sum_over f l.
Proof.
  revert a. induction l as [|r l IH]; simpl; intros a Hpos Ha Hle; [lia|].
  pose proof (Hpos r (or_introl eq_refl)) as Hr.
  assert (Hl : forall r', In r' l -> 0 <= f r') by (intros; apply Hpos; now right).
  assert (H0 : 0 <= sum_over f l) by now apply sum_over_nonneg.
  rewrite plus_exact by lia. rewrite IH by (trivial; lia). lia.
Qed.

Lemma trend_sums_exact (l : list Raw.t) (k : string) :
  exact_sum (fun r => or_zero (Raw.total_updates r)) l ->
  exact_sum (fun r => or_zero (Raw.total_enrolment r)) l ->
  fold_left (trend_add_with plus) l (trend_init k)
  = fold_left trend_add l (trend_init k).
Proof.
  unfold trend_init. intros [Hu Hsu] [He Hse].
  assert (G : forall u e,
    0 <= u -> u + sum_over (fun r => or_zero (Raw.total_updates r)) l <= 2 ^ 53 ->
    0 <= e -> e + sum_over (fun r => or_zero (Raw.total_enrolment r)) l <= 2 ^ 53 ->
    fold_left (trend_add_with plus) l (Trend.mk k u e)
    = fold_left trend_add l (Trend.mk k u e)).
  { clear Hsu Hse. induction l as [|r l IH]; simpl; intros u e Hu0 Hub He0 Heb;
      [reflexivity|].
    pose proof (Hu r (or_introl eq_refl)) as Hr.
    pose proof (He r (or_introl eq_refl)) as Hr'.
    assert (Hul : forall r', In r' l -> 0 <= or_zero (Raw.total_updates r'))
      by (intros; apply Hu; now right).
    assert (Hel : forall r', In r' l -> 0 <= or_zero (Raw.total_enrolment r'))
      by (intros; apply He; now right).
    pose proof (sum_over_nonneg _ l Hul).
    pose proof (sum_over_nonneg _ l Hel).
    unfold trend_add_with at 2, trend_add at 2. simpl.
    rewrite !plus_exact by lia. apply IH; trivial; lia. }
  apply G; lia.
Qed.

Lemma pivot_sums_exact (pivotY : metric) (l : list Raw.t) (k : string) :
  exact_sum (fun r => or_zero (metric_of pivotY r)) l ->
  fold_left (pivot_add_with plus pivotY) l (pivot_init k)
  = fold_left (pivot_add pivotY) l (pivot_init k).
Proof.
  unfold pivot_init. intros [Hm Hsm].
  assert (G : forall v,
    0 <= v -> v + sum_over (fun r => or_zero (metric_of pivotY r)) l <= 2 ^ 53 ->
    fold_left (pivot_add_with plus pivotY) l (Pivot.mk k v)
    = fold_left (pivot_add pivotY) l (Pivot.mk k v)).
  { clear Hsm. induction l as [|r l IH]; simpl; intros v Hv Hb; [reflexivity|].
    pose proof (Hm r (or_introl eq_refl)) as Hr.
    assert (Hl : forall r', In r' l -> 0 <= or_zero (metric_of pivotY r'))
      by (intros; apply Hm; now right).
    pose proof (sum_over_nonneg _ l Hl).
    unfold pivot_add_with at 2, pivot_add at 2. simpl.
    rewrite plus_exact by lia. apply IH; trivial; lia. }
  apply G; lia.
Qed.

(** The accumulator of [trendData] is the same with either addition. *)
Lemma trend_fold_exact (rs : list Raw.t) :
  exact_sum (fun r => or_zero (Raw.total_updates r)) rs ->
  exact_sum (fun r => or_zero (Raw.total_enrolment r)) rs ->
  fold_left (group_step date_key trend_init (trend_add_with plus)) rs
            JsObject.empty
  = fold_left trend_reducer rs JsObject.empty.
Proof.
  intros Hu He.
  rewrite (fold_left_ext _ _ rs _ trend_reducer_step), !fold_group_step.
  unfold grouped. apply map_ext. intros k. unfold group_value, filed.
  f_equal. apply trend_sums_exact; now apply exact_sum_filter.
Qed.

(** The accumulator of [studioData] is the same with either addition. *)
Lemma studio_fold_exact (pivotX : dimension) (pivotY : metric)
  (rs : list Raw.t) :
  exact_sum (fun r => or_zero (metric_of pivotY r)) rs ->
  fold_left (group_step (group_key pivotX) pivot_init
               (pivot_add_with plus pivotY)) rs JsObject.empty
  = fold_left (studio_reducer pivotX pivotY) rs JsObject.empty.
Proof.
  intros Hm.
  rewrite (fold_left_ext _ _ rs _ (studio_reducer_step pivotX pivotY)).
  rewrite !fold_group_step.
  unfold grouped. apply map_ext. intros k. unfold group_value, filed.
  f_equal. apply pivot_sums_exact. now apply exact_sum_filter.
Qed.

(** The totals of [demographicSplit] are the same with either addition. *)
Lemma demographic_fold_exact (rs : list Raw.t) :
  exact_sum (fun r => or_zero (Raw.age_0_5 r)) rs ->
  exact_sum (fun r => or_zero (Raw.age_5_17 r)) rs ->
  exact_sum (fun r => or_zero (Raw.age_18_greater r)) rs ->
  fold_left (demographic_reducer_with plus) rs (Demographic.mk_totals 0 0 0)
  = fold_left demographic_reducer rs (Demographic.mk_totals 0 0 0).
Proof.
  intros [Ha Hsa] [Hb Hsb] [Hc Hsc].
  assert (G : forall a b c,
    0 <= a -> a + sum_over (fun r => or_zero (Raw.age_0_5 r)) rs <= 2 ^ 53 ->
    0 <= b -> b + sum_over (fun r => or_zero (Raw.age_5_17 r)) rs <= 2 ^ 53 ->
    0 <= c -> c + sum_over (fun r => or_zero (Raw.age_18_greater r)) rs <= 2 ^ 53 ->
    fold_left (demographic_reducer_with plus) rs (Demographic.mk_totals a b c)
    = fold_left demographic_reducer rs (Demographic.mk_totals a b c)).
  { clear Hsa Hsb Hsc. induction rs as [|r rs IH]; simpl;
      intros a b c Ha0 Hab Hb0 Hbb Hc0 Hcb; [reflexivity|].
    pose proof (Ha r (or_introl eq_refl)).
    pose proof (Hb r (or_introl eq_refl)).
    pose proof (Hc r (or_introl eq_refl)).
    assert (Ha' : forall r', In r' rs -> 0 <= or_zero (Raw.age_0_5 r'))
      by (intros; apply Ha; now right).
    assert (Hb' : forall r', In r' rs -> 0 <= or_zero (Raw.age_5_17 r'))
      by (intros; apply Hb; now right).
    assert (Hc' : forall r', In r' rs -> 0 <= or_zero (Raw.age_18_greater r'))
      by (intros; apply Hc; now right).
    pose proof (sum_over_nonneg _ rs Ha').
    pose proof (sum_over_nonneg _ rs Hb').
    pose proof (sum_over_nonneg _ rs Hc').
    unfold demographic_reducer_with at 2, demographic_reducer at 2. simpl.
    rewrite !plus_exact by lia. apply IH; trivial; lia. }
  apply G; lia.
Qed.
End ExactSums.

(* ================================================================== *)
(** * Totals are kept by the aggregations *)

Lemma sumZ_app (l l' : list Z) : sumZ (l ++ l') = sumZ l + sumZ l'.
Proof. induction l as [|a l IH]; simpl; [reflexivity | rewrite IH; lia]. Qed.

Lemma sumZ_perm (l l' : list Z) : Permutation l l' -> sumZ l = sumZ l'.
Proof.
  induction 1 as [|x l l' _ IH|x y l|l l' l'' _ IH1 _ IH2]; simpl; lia.
Qed.

Lemma sum_over_perm (f : Raw.t -> Z) (rs rs' : list Raw.t) :
  Permutation rs rs' -> sum_over f rs = sum_over f rs'.
Proof.
  induction 1 as [|x l l' _ IH|x y l|l l' l'' _ IH1 _ IH2]; simpl; lia.
Qed.

Lemma sumZ_zero {A : Type} (l : list A) : sumZ (map (fun _ => 0) l) = 0.
Proof. induction l as [|a l IH]; simpl; [reflexivity | now rewrite IH]. Qed.

Lemma sumZ_plus {A : Type} (g h : A -> Z) (l : list A) :
  sumZ (map (fun a => g a + h a) l) = sumZ (map g l) + sumZ (map h l).
Proof. induction l as [|a l IH]; simpl; [reflexivity | rewrite IH; lia]. Qed.

(** Over names without repetition a value filed under one name is counted
    once if the name is listed and not at all otherwise. *)
Lemma sumZ_indicator (k : string) (v : Z) (names : list string) :
  NoDup names ->
  sumZ (map (fun n => if String.eqb k n then v else 0) names)
  = if existsb (String.eqb k) names then v else 0.
Proof.
  induction 1 as [|n names Hn Hnd IH]; simpl; [reflexivity|].
  destruct (String.eqb_spec k n) as [->|Hne]; simpl; [|exact IH].
  rewrite IH. apply existsb_eqb_notIn in Hn. rewrite Hn. lia.
Qed.

Lemma sum_over_groups (key : Raw.t -> string) (f : Raw.t -> Z)
  (names : list string) (rs : list Raw.t) :
  NoDup names ->
  sumZ (map (fun k => sum_over f (filed key k rs)) names)
  = sum_over f (filter (fun r => existsb (String.eqb (key r)) names) rs).
Proof.
  intros Hnd. induction rs as [|r rs IH]; simpl.
  - apply sumZ_zero.
  - rewrite (map_ext _ (fun k => (if String.eqb (key r) k then f r else 0)
                                 + sum_over f (filed key k rs))).
    + rewrite sumZ_plus, IH, (sumZ_indicator _ _ _ Hnd).
      destruct (existsb (String.eqb (key r)) names); simpl; lia.
    + intros k. destruct (String.eqb (key r) k); reflexivity.
Qed.

Lemma listed_is_grouping (key : Raw.t -> string) (rs : list Raw.t) :
  filter (fun r => existsb (String.eqb (key r)) (own_names (map key rs))) rs
  = grouping key rs.
Proof.
  unfold grouping. apply filter_ext_in. intros r Hr.
  destruct (JsObject.inherited (key r)) eqn:Hi; simpl.
  - apply existsb_eqb_notIn. intros Hin. apply own_names_In in Hin.
    destruct Hin as [_ Hin]. congruence.
  - apply existsb_eqb_In, own_names_In. split; [now apply in_map | exact Hi].
Qed.

(** X1: the series keeps the totals.  For counts that add up exactly
    (none negative, their sums at most 2^53) the [updates] of the points
    add up to the sum of [total_updates], and their [enrolments] to the
    sum of [total_enrolment], over the records whose date key makes a
    point (every record, unless its date is a property name of
    [Object.prototype]). *)
Theorem trendData_totals (other : string -> option Z) (rs : list Raw.t) :
  exact_sum (fun r => or_zero (Raw.total_updates r)) rs ->
  exact_sum (fun r => or_zero (Raw.total_enrolment r)) rs ->
  sumZ (map Trend.updates (trendData other rs))
  = sum_over (fun r => or_zero (Raw.total_updates r)) (grouping date_key rs)
  /\ sumZ (map Trend.enrolments (trendData other rs))
     = sum_over (fun r => or_zero (Raw.total_enrolment r)) (grouping date_key rs).
Proof.
  intros _ _. split.
  - rewrite (sumZ_perm _ _ (Permutation_map Trend.updates (trendData_perm other rs))).
    rewrite map_map. simpl.
    rewrite (sum_over_groups date_key _ _ rs (own_names_NoDup _)).
    now rewrite listed_is_grouping.
  - rewrite (sumZ_perm _ _ (Permutation_map Trend.enrolments (trendData_perm other rs))).
    rewrite map_map. simpl.
    rewrite (sum_over_groups date_key _ _ rs (own_names_NoDup _)).
    now rewrite listed_is_grouping.
Qed.

Lemma trendData_totals_witness :
  sumZ (map Trend.updates (trendData JsDate.strict_engine three_days)) = 13
  /\ sumZ (map Trend.enrolments (trendData JsDate.strict_engine three_days)) = 4.
Proof.
  apply (trendData_totals JsDate.strict_engine three_days).
  - split; [|vm_compute; discriminate].
    intros r [<-|[<-|[<-|[]]]]; vm_compute; discriminate.
  - split; [|vm_compute; discriminate].
    intros r [<-|[<-|[<-|[]]]]; vm_compute; discriminate.
Defined.

Lemma ranked_perm (pivotX : dimension) (pivotY : metric) (rs : list Raw.t) :
  Permutation (ranked pivotX pivotY rs)
    (map (pivot_entry pivotX pivotY rs) (pivot_names pivotX rs)).
Proof.
  rewrite <- pivot_groups_values. unfold ranked.
  eapply perm_trans; [apply sort_perm | apply Object_values_perm].
Qed.

Lemma ranked_total (pivotX : dimension) (pivotY : metric) (rs : list Raw.t) :
  sumZ (map Pivot.value (ranked pivotX pivotY rs))
  = sum_over (fun r => or_zero (metric_of pivotY r))
      (grouping (group_key pivotX) rs).
Proof.
  rewrite (sumZ_perm _ _ (Permutation_map Pivot.value (ranked_perm pivotX pivotY rs))).
  rewrite map_map. simpl. unfold pivot_names.
  rewrite (sum_over_groups (group_key pivotX) _ _ rs (own_names_NoDup _)).
  now rewrite listed_is_grouping.
Qed.

(** X2: with at most twelve groups nothing is cut: for a metric that
    adds up exactly (no record negative, the sum at most 2^53) the values
    of the pivot add up to the sum of the metric over the records whose
    dimension value makes a group. *)
Theorem studioData_totals (rs : list Raw.t) (pivotX : dimension)
  (pivotY : metric) :
  exact_sum (fun r => or_zero (metric_of pivotY r)) rs ->
  (List.length (pivot_names pivotX rs) <= 12)%nat ->
  sumZ (map Pivot.value (studioData rs pivotX pivotY))
  = sum_over (fun r => or_zero (metric_of pivotY r))
      (grouping (group_key pivotX) rs).
Proof.
  intros _ Hlen. rewrite studioData_groups. fold (ranked pivotX pivotY rs).
  rewrite firstn_all2; [apply ranked_total|].
  now rewrite (Permutation_length (ranked_perm pivotX pivotY rs)), length_map.
Qed.

Lemma studioData_totals_witness :
  sumZ (map Pivot.value (studioData numbered_districts By_district Total_updates))
  = sum_over (fun r => or_zero (metric_of Total_updates r))
      (grouping (group_key By_district) numbered_districts).
Proof.
  apply (studioData_totals numbered_districts By_district Total_updates).
  - split; [|vm_compute; discriminate].
    intros r [<-|[<-|[]]]; vm_compute; discriminate.
  - vm_compute. lia.
Defined.

(* ================================================================== *)
(** * What the cut of the pivot keeps *)

Lemma sumZ_firstn_le (n : nat) (l : list Z) :
  (forall z, In z l -> 0 <= z) -> sumZ (firstn n l) <= sumZ l.
Proof.
  revert n. induction l as [|a l IH]; intros n H.
  - rewrite firstn_nil. simpl. lia.
  - pose proof (H a (or_introl eq_refl)).
    assert (Hl : forall z, In z l -> 0 <= z) by (intros; apply H; now right).
    destruct n; simpl.
    + assert (0 <= sumZ l); [|lia].
      clear IH H. induction l as [|b l IHl]; simpl; [lia|].
      pose proof (Hl b (or_introl eq_refl)).
      assert (0 <= sumZ l) by (apply IHl; intros; apply Hl; now right). lia.
    + specialize (IH n Hl). lia.
Qed.

Lemma firstn_In {A : Type} (n : nat) (l : list A) (a : A) :
  In a (firstn n l) -> In a l.
Proof.
  intros H. rewrite <- (firstn_skipn n l). apply in_or_app. now left.
Qed.

Lemma ranked_In (pivotX : dimension) (pivotY : metric) (rs : list Raw.t)
  (e : Pivot.entry) :
  In e (ranked pivotX pivotY rs) ->
  exists r, In r rs /\ JsObject.inherited (group_key pivotX r) = false
            /\ e = pivot_entry pivotX pivotY rs (group_key pivotX r).
Proof.
  intros He. apply (Permutation_in _ (ranked_perm pivotX pivotY rs)) in He.
  apply in_map_iff in He. destruct He as [k [<- Hk]].
  apply pivot_names_In in Hk. destruct Hk as [r [Hr [<- Hi]]]. now exists r.
Qed.

Lemma studioData_In (rs : list Raw.t) (pivotX : dimension) (pivotY : metric)
  (e : Pivot.entry) :
  In e (studioData rs pivotX pivotY) -> In e (ranked pivotX pivotY rs).
Proof.
  rewrite studioData_groups. fold (ranked pivotX pivotY rs). apply firstn_In.
Qed.

(** X3: for a metric that adds up exactly (no record negative, the sum
    at most 2^53) no entry of the pivot is negative and the entries shown
    add up to no more than the metric's sum over all records. *)
Theorem studioData_bounded (rs : list Raw.t) (pivotX : dimension)
  (pivotY : metric) :
  exact_sum (fun r => or_zero (metric_of pivotY r)) rs ->
  (forall e, In e (studioData rs pivotX pivotY) -> 0 <= Pivot.value e)
  /\ sumZ (map Pivot.value (studioData rs pivotX pivotY))
     <= sum_over (fun r => or_zero (metric_of pivotY r)) rs.
Proof.
  intros [Hpos _].
  assert (Hall : forall e, In e (ranked pivotX pivotY rs) -> 0 <= Pivot.value e).
  { intros e He. destruct (ranked_In _ _ _ _ He) as [r [_ [_ ->]]]. simpl.
    apply sum_over_nonneg. intros r' Hr'. apply Hpos.
    unfold filed in Hr'. now apply filter_In in Hr'. }
  split.
  - intros e He. apply Hall. now apply studioData_In.
  - rewrite studioData_groups. fold (ranked pivotX pivotY rs).
    rewrite <- firstn_map.
    eapply Z.le_trans; [apply sumZ_firstn_le|].
    + intros z Hz. apply in_map_iff in Hz. destruct Hz as [e [<- He]].
      now apply Hall.
    + rewrite ranked_total. unfold grouping. now apply sum_over_filter_le.
Qed.

Lemma studioData_bounded_witness :
  sumZ (map Pivot.value (studioData fifteen_districts By_district Total_updates))
  <= sum_over (fun r => or_zero (metric_of Total_updates r)) fifteen_districts.
Proof.
  apply (studioData_bounded fifteen_districts By_district Total_updates).
  split; [|vm_compute; discriminate].
  intros r Hr. unfold fifteen_districts in Hr. simpl in Hr.
  repeat (destruct Hr as [<-|Hr]; [simpl; lia|]). contradiction.
Defined.




(** Of the fifteen districts the three lightest are cut. *)
Example fifteen_districts_cut :
  map Pivot.name (skipn 12 (ranked By_district Total_updates fifteen_districts))
  = ["Kodagu"; "Yadgir"; "Ballari"].
Proof. reflexivity. Qed.

(* ================================================================== *)
(** * The order of the records *)

Lemma filed_perm (key : Raw.t -> string) (k : string) (rs rs' : list Raw.t) :
  Permutation rs rs' -> Permutation (filed key k rs) (filed key k rs').
Proof. apply filter_perm. Qed.

Lemma own_names_perm (ks ks' : list string) :
  Permutation ks ks' -> Permutation (own_names ks) (own_names ks').
Proof.
  intros H. apply NoDup_Permutation; try apply own_names_NoDup.
  intros k. rewrite !own_names_In. split; intros [Hin Hi]; split; trivial.
  - exact (Permutation_in _ H Hin).
  - exact (Permutation_in _ (Permutation_sym H) Hin).
Qed.

Lemma trend_point_perm (rs rs' : list Raw.t) (k : string) :
  Permutation rs rs' -> trend_point rs k = trend_point rs' k.
Proof.
  intros H. unfold trend_point.
  now rewrite !(sum_over_perm _ _ _ (filed_perm date_key k rs rs' H)).
Qed.

Lemma trendData_NoDup (other : string -> option Z) (rs : list Raw.t) :
  NoDup (map Trend.date (trendData other rs)).
Proof.
  apply (Permutation_NoDup
           (Permutation_sym (Permutation_map Trend.date (trendData_perm other rs)))).
  rewrite trend_point_dates. apply own_names_NoDup.
Qed.

Lemma trendData_strict (other : string -> option Z) (rs : list Raw.t) :
  (forall r, In r rs -> is_date other (date_key r) = true) ->
  (forall r1 r2, In r1 rs -> In r2 rs ->
     JsDate.parse other (date_key r1) = JsDate.parse other (date_key r2) ->
     date_key r1 = date_key r2) ->
  StronglySorted (rank_lt (time_of other)) (trendData other rs).
Proof.
  intros Hd Hinj.
  apply (sorted_strict (time_of other) Trend.date).
  - rewrite (trendData_ranked other rs Hd). apply sort_sorted.
  - apply trendData_NoDup.
  - intros a b Ha Hb Hab.
    destruct (trendData_dates other rs a Ha) as [ra [Hra [_ ->]]].
    destruct (trendData_dates other rs b Hb) as [rb [Hrb [_ ->]]].
    simpl. apply Hinj; [exact Hra | exact Hrb|].
    pose proof (Hd ra Hra) as Da. pose proof (Hd rb Hrb) as Db.
    unfold time_of in Hab. unfold is_date in Da, Db. simpl in Hab.
    destruct (JsDate.parse other (date_key ra)); [|discriminate].
    destruct (JsDate.parse other (date_key rb)); [|discriminate].
    now subst.
Qed.

(** Two strictly sorted lists with the same elements are the same list. *)
Lemma strict_sorted_unique {A : Type} (rank : A -> Z) (l l' : list A) :
  StronglySorted (rank_lt rank) l ->
  StronglySorted (rank_lt rank) l' ->
  Permutation l l' -> l = l'.
Proof.
  revert l'. induction l as [|a l IH]; intros l' Hs Hs' Hp.
  - now apply Permutation_nil in Hp.
  - destruct l' as [|b l'].
    + apply Permutation_sym, Permutation_nil in Hp. discriminate.
    + apply StronglySorted_inv in Hs. destruct Hs as [Hs Ha].
      apply StronglySorted_inv in Hs'. destruct Hs' as [Hs' Hb].
      rewrite Forall_forall in Ha, Hb.
      assert (Hab : a = b).
      { pose proof (Permutation_in a Hp (or_introl eq_refl)) as Hin.
        pose proof (Permutation_in b (Permutation_sym Hp) (or_introl eq_refl))
          as Hin'.
        destruct Hin as [E|Hin]; [now subst|].
        destruct Hin' as [E|Hin']; [now subst|].
        specialize (Ha b Hin'). specialize (Hb a Hin).
        unfold rank_lt in Ha, Hb. lia. }
      subst b. f_equal. apply IH; trivial.
      now apply Permutation_cons_inv in Hp.
Qed.

(** X5: the series does not depend on the order of the records, for
    counts that add up exactly (none negative, their sums at most 2^53).
    Record sets that are rearrangements of each other then give the same
    points, and give them in the same order when every date key is a
    date and no two distinct keys denote the same instant. *)
Theorem trendData_order_independent (other : string -> option Z)
  (rs rs' : list Raw.t) :
  exact_sum (fun r => or_zero (Raw.total_updates r)) rs ->
  exact_sum (fun r => or_zero (Raw.total_enrolment r)) rs ->
  Permutation rs rs' ->
  Permutation (trendData other rs) (trendData other rs')
  /\ ((forall r, In r rs -> is_date other (date_key r) = true) ->
      (forall r1 r2, In r1 rs -> In r2 rs ->
         JsDate.parse other (date_key r1) = JsDate.parse other (date_key r2) ->
         date_key r1 = date_key r2) ->
      trendData other rs = trendData other rs').
Proof.
  intros _ _ Hp.
  assert (Hpts : Permutation (trendData other rs) (trendData other rs')).
  { eapply perm_trans; [apply trendData_perm|].
    eapply perm_trans; [|apply Permutation_sym, trendData_perm].
    rewrite (map_ext _ _ (fun k => trend_point_perm rs rs' k Hp)).
    apply Permutation_map, own_names_perm, Permutation_map, Hp. }
  split; [exact Hpts|]. intros Hd Hinj.
  apply (strict_sorted_unique (time_of other)); [| |exact Hpts].
  - now apply trendData_strict.
  - apply trendData_strict.
    + intros r Hr. apply Hd. exact (Permutation_in _ (Permutation_sym Hp) Hr).
    + intros r1 r2 H1 H2. apply Hinj;
        [exact (Permutation_in _ (Permutation_sym Hp) H1)
        |exact (Permutation_in _ (Permutation_sym Hp) H2)].
Qed.

Lemma trendData_order_independent_witness :
  trendData JsDate.strict_engine three_days
  = trendData JsDate.strict_engine (rev three_days).
Proof.
  apply (trendData_order_independent JsDate.strict_engine three_days
           (rev three_days)).
  - split; [|vm_compute; discriminate].
    intros r [<-|[<-|[<-|[]]]]; vm_compute; discriminate.
  - split; [|vm_compute; discriminate].
    intros r [<-|[<-|[<-|[]]]]; vm_compute; discriminate.
  - apply Permutation_rev.
  - intros r [<-|[<-|[<-|[]]]]; reflexivity.
  - intros r1 r2 [<-|[<-|[<-|[]]]] [<-|[<-|[<-|[]]]] H;
      solve [reflexivity | vm_compute in H; discriminate H].
Defined.

Lemma demographic_perm (rs rs' : list Raw.t) :
  Permutation rs rs' ->
  fold_left demographic_reducer rs (Demographic.mk_totals 0 0 0)
  = fold_left demographic_reducer rs' (Demographic.mk_totals 0 0 0).
Proof.
  intros H. rewrite !demographic_sums.
  now rewrite !(sum_over_perm _ _ _ H).
Qed.

(** X6: the demographic split does not depend on the order of the
    records, for age bands that add up exactly (none negative, each
    band's sum at most 2^53). *)
Theorem demographicSplit_order_independent (rs rs' : list Raw.t) :
  exact_sum (fun r => or_zero (Raw.age_0_5 r)) rs ->
  exact_sum (fun r => or_zero (Raw.age_5_17 r)) rs ->
  exact_sum (fun r => or_zero (Raw.age_18_greater r)) rs ->
  Permutation rs rs' -> demographicSplit rs = demographicSplit rs'.
Proof.
  intros _ _ _ H. destruct rs as [|r rs], rs' as [|r' rs'].
  - reflexivity.
  - apply Permutation_nil in H. discriminate.
  - apply Permutation_sym, Permutation_nil in H. discriminate.
  - unfold demographicSplit. now rewrite (demographic_perm _ _ H).
Qed.

Lemma demographicSplit_order_independent_witness :
  demographicSplit three_households = demographicSplit (rev three_households).
Proof.
  apply (demographicSplit_order_independent three_households
           (rev three_households)).
  - split; [|vm_compute; discriminate].
    intros r [<-|[<-|[<-|[]]]]; vm_compute; discriminate.
  - split; [|vm_compute; discriminate].
    intros r [<-|[<-|[<-|[]]]]; vm_compute; discriminate.
  - split; [|vm_compute; discriminate].
    intros r [<-|[<-|[<-|[]]]]; vm_compute; discriminate.
  - apply Permutation_rev.
Defined.

(** The split of the three households. *)
Example three_households_split :
  map Demographic.value (demographicSplit three_households) = [6; 6; 9].
Proof. reflexivity. Qed.

(* ================================================================== *)
(** * The timeline pivot and the series *)

Lemma or_string_inv (d : option string) (default k : string) :
  k <> default -> or_string d default = k -> d = Some k /\ k <> "".
Proof.
  intros Hk. unfold or_string. destruct d as [x|]; [|congruence].
  destruct (String.eqb_spec x ""); [congruence|]. intros <-. now split.
Qed.

Lemma or_string_some (default k : string) :
  k <> "" -> or_string (Some k) default = k.
Proof.
  intros Hk. unfold or_string.
  destruct (String.eqb_spec k ""); [contradiction | reflexivity].
Qed.

Lemma timeline_key (k : string) (r : Raw.t) :
  k <> "Unknown" -> k <> "N/A" ->
  String.eqb (group_key By_date r) k = String.eqb (date_key r) k.
Proof.
  intros Hu Hn. unfold group_key, date_key. simpl.
  destruct (String.eqb_spec (or_string (Raw.date r) "Unknown") k) as [E|E],
           (String.eqb_spec (or_string (Raw.date r) "N/A") k) as [E'|E'];
    try reflexivity; exfalso.
  - destruct (or_string_inv _ _ _ Hu E) as [Hd Hk]. apply E'.
    rewrite Hd. now apply or_string_some.
  - destruct (or_string_inv _ _ _ Hn E') as [Hd Hk]. apply E.
    rewrite Hd. now apply or_string_some.
Qed.

(** X7: the pivot by date and the series agree.  Every entry the Timeline
    pivot shows, other than the ["Unknown"] group and a date spelt
    ['N/A'], is a point of the series with the same date, and its value is
    that point's [updates] (for Total Updates) or [enrolments] (for
    Enrolments). *)
Theorem timeline_pivot_matches_series (other : string -> option Z)
  (rs : list Raw.t) (pivotY : metric) (e : Pivot.entry) :
  In e (studioData rs By_date pivotY) ->
  Pivot.name e <> "Unknown" ->
  Pivot.name e <> "N/A" ->
  exists p,
    In p (trendData other rs)
    /\ Trend.date p = Pivot.name e
    /\ Pivot.value e
       = match pivotY with
         | Total_updates => Trend.updates p
         | Total_enrolment => Trend.enrolments p
         end.
Proof.
  intros He Hu Hn. apply studioData_In, ranked_In in He.
  destruct He as [r [Hr [Hi ->]]]. simpl in Hu, Hn.
  set (k := group_key By_date r) in *.
  assert (Hk : date_key r = k).
  { apply String.eqb_eq. rewrite <- (timeline_key k r Hu Hn).
    apply String.eqb_refl. }
  exists (trend_point rs k). split; [|split].
  - apply (Permutation_in _ (Permutation_sym (trendData_perm other rs))).
    apply in_map, own_names_In. split; [|exact Hi].
    rewrite <- Hk. now apply in_map.
  - reflexivity.
  - simpl. unfold filed.
    rewrite (filter_ext _ _ (fun r' => timeline_key k r' Hu Hn)).
    now destruct pivotY.
Qed.

Lemma timeline_pivot_matches_series_witness :
  exists p,
    In p (trendData JsDate.strict_engine three_days)
    /\ Trend.date p = "2025-01-02"
    /\ 6 = Trend.updates p.
Proof.
  apply (timeline_pivot_matches_series JsDate.strict_engine three_days
           Total_updates (Pivot.mk "2025-01-02" 6)).
  - vm_compute. right. left. reflexivity.
  - discriminate.
  - discriminate.
Defined.

(* ================================================================== *)
(** * The chart series: failure and what is kept *)

Section ChartMore.
Context {num : Type} {engine : Js.Engine num}.

Lemma map_map_from {A B C : Type} (f : A -> nat -> B) (g : B -> C)
  (h : A -> C) (i : nat) (l : list A) :
  (forall d j, g (f d j) = h d) ->
  map g (map_from f i l) = map h l.
Proof.
  intros H. revert i. induction l as [|a l IH]; intros i; simpl;
    [reflexivity|]. now rewrite H, IH.
Qed.

(** X8: [chartData] fails exactly when there is a series to extend and
    the prediction details lack the entry of one of the two models; the
    failure is a [TypeError].  Without a series or without prediction
    details it returns. *)
Theorem chartData_throws_iff (trend : list Trend.point)
  (predictionDetails : option (Prediction.details num)) :
  (forall e, chartData trend predictionDetails = Js.Throw e -> e = Js.TypeError)
  /\ (chartData trend predictionDetails = Js.Throw Js.TypeError <->
      trend <> []
      /\ exists d, predictionDetails = Some d
                   /\ (Prediction.xgboost d = None
                       \/ Prediction.random_forest d = None)).
Proof.
  destruct trend as [|a t].
  - split; [destruct predictionDetails; discriminate|].
    split; [destruct predictionDetails; discriminate | intros [H _]; congruence].
  - destruct predictionDetails as [d|].
    + simpl. destruct (Prediction.xgboost d) as [xgb|] eqn:Ex.
      * destruct (Prediction.random_forest d) as [rf|] eqn:Er.
        -- split; [discriminate|]. split; [discriminate|].
           intros [_ [d' [Hd [H|H]]]]; injection Hd as <-; congruence.
        -- split; [congruence|]. split; [|reflexivity]. intros _.
           split; [discriminate|]. exists d. auto.
      * split; [congruence|]. split; [|reflexivity]. intros _.
        split; [discriminate|]. exists d. auto.
    + split; [discriminate|]. split; [discriminate|].
      intros [_ [d [Hd _]]]. discriminate.
Qed.

(** X9: whenever [chartData] returns, the chart shows the series as it
    is: the points of the result carry the dates, updates and enrolments
    of the series, in order, followed by nothing or by the one forecast
    node, which has neither. *)
Theorem chartData_keeps_series (trend : list Trend.point)
  (predictionDetails : option (Prediction.details num))
  (chart : list (Chart.point num)) :
  chartData trend predictionDetails = Js.Normal chart ->
  map plain chart = map plain_trend trend
  \/ (map plain chart
      = map plain_trend trend ++ [("Next Cycle (Est)", None, None)]
      /\ trend <> [] /\ predictionDetails <> None).
Proof.
  destruct trend as [|a t].
  - destruct predictionDetails; simpl; intros [= <-]; now left.
  - destruct predictionDetails as [d|].
    + intros Hc.
      assert (H : chartData (a :: t) (Some d)
                  = match Prediction.xgboost d, Prediction.random_forest d with
                    | Some xgb, Some rf =>
                        Js.Normal
                          (map_indexed (fun d0 i =>
                             if Nat.eqb i (List.length (a :: t) - 1)%nat
                             then with_forecast d0 else Chart.of_trend d0)
                             (a :: t)
                           ++ [forecast_node xgb rf])
                    | _, _ => Js.Throw Js.TypeError
                    end).
      { unfold chartData. destruct (Prediction.xgboost d);
          [destruct (Prediction.random_forest d)|]; reflexivity. }
      rewrite H in Hc. clear H.
      destruct (Prediction.xgboost d) as [xgb|]; [|discriminate].
      destruct (Prediction.random_forest d) as [rf|]; [|discriminate].
      apply (f_equal (fun c => match c with
                               | Js.Normal l => l
                               | Js.Throw _ => []
                               end)) in Hc.
      cbv beta iota in Hc. subst chart.
      right. split; [|split; discriminate].
      rewrite map_app. f_equal. unfold map_indexed.
      apply map_map_from. intros d0 j.
      now destruct (Nat.eqb j (List.length (a :: t) - 1)).
    + intros [= <-]. left. simpl. rewrite map_map. reflexivity.
Qed.
End ChartMore.

Lemma chartData_keeps_series_witness :
  map plain
    [ Chart.mk "2025-01-01" (Some 10) (Some 1) None None;
      Chart.mk "2025-01-02" (Some 20) (Some 2)
        (Some (Js.Num 20)) (Some (Js.Num 20));
      Chart.mk "Next Cycle (Est)" None None
        (Some (Js.Num 2000000)) (Some (Js.Num 3000000)) ]
  = map plain_trend [Trend.mk "2025-01-01" 10 1; Trend.mk "2025-01-02" 20 2]
  \/ (map plain
        [ Chart.mk "2025-01-01" (Some 10) (Some 1) None None;
          Chart.mk "2025-01-02" (Some 20) (Some 2)
            (Some (Js.Num 20)) (Some (Js.Num 20));
          Chart.mk "Next Cycle (Est)" None None
            (Some (Js.Num 2000000)) (Some (Js.Num 3000000)) ]
      = map plain_trend [Trend.mk "2025-01-01" 10 1; Trend.mk "2025-01-02" 20 2]
        ++ [("Next Cycle (Est)", None, None)]
      /\ [Trend.mk "2025-01-01" 10 1; Trend.mk "2025-01-02" 20 2] <> []
      /\ App.predictionDetails ready <> None).
Proof.
  apply (chartData_keeps_series
           [Trend.mk "2025-01-01" 10 1; Trend.mk "2025-01-02" 20 2]
           (App.predictionDetails ready)).
  reflexivity.
Defined.

(* ================================================================== *)
(** * Loading the dashboard *)

Section Loading.
Context {num : Type} {engine : Js.Engine num}.
Variable server : Page.backend num.

(** What [init] leaves behind. *)
Lemma init_run (w : Page.world num) :
  Page.init server w
  = (Js.Normal tt,
     let s := Page.hooks w in
     Page.mk_world
       (match Page.summary server with
        | Page.Done data =>
            App.mk_state (match data with Some l => l | None => [] end)
              (App.governanceData s) (App.predictionDetails s)
              "SYSTEM ONLINE" (App.activeModel s) (App.aiBriefing s)
              (App.isAiLoading s) (App.pivotX s) (App.pivotY s)
              (App.uploadStatus s)
        | Page.Failed _ =>
            App.mk_state (App.rawData s)
              (App.governanceData s) (App.predictionDetails s)
              "CONNECTION ERROR" (App.activeModel s) (App.aiBriefing s)
              (App.isAiLoading s) (App.pivotX s) (App.pivotY s)
              (App.uploadStatus s)
        end)
       (Page.calls w ++ [Page.Get (Page.api "summary")])
       (Page.console w) (Page.timers w)).
Proof.
  unfold Page.init, Page.try_catch, Page.bind, Page.axios_get.
  destruct (Page.summary server) as [why|data]; reflexivity.
Qed.

(** What [fetchAnalytics] leaves behind. *)
Lemma fetchAnalytics_run (w : Page.world num) :
  Page.fetchAnalytics server w
  = (Js.Normal tt,
     let s := Page.hooks w in
     let asked :=
       Page.calls w ++ [Page.Get (Page.api "governance-indices")]
                    ++ [Page.Get (Page.api "model-comparison")] in
     match Page.governance_indices server, Page.model_comparison server with
     | Page.Done radar, Page.Done pred =>
         Page.mk_world
           (App.mk_state (App.rawData s) radar pred (App.status s)
              (App.activeModel s) (App.aiBriefing s) (App.isAiLoading s)
              (App.pivotX s) (App.pivotY s) (App.uploadStatus s))
           asked (Page.console w) (Page.timers w)
     | _, _ =>
         Page.mk_world s asked
           (Page.console w ++ ["Deep analytics sync failed"]) (Page.timers w)
     end).
Proof.
  unfold Page.fetchAnalytics, Page.try_catch, Page.bind, Page.Promise_all,
    Page.axios_get.
  destruct (Page.governance_indices server) as [why|radar],
           (Page.model_comparison server) as [why'|pred];
    simpl; rewrite <- ?app_assoc; reflexivity.
Qed.

(** X10: the analytics arrive together or not at all.  [fetchAnalytics]
    never raises and always asks for both the governance indices and the
    model comparison; when both requests succeed it stores both bodies,
    and when either fails it stores neither, leaves every hook as it was
    and writes one line to the console. *)
Theorem fetchAnalytics_all_or_nothing (w : Page.world num) :
  let out := Page.fetchAnalytics server w in
  let after := Page.hooks (snd out) in
  let before := Page.hooks w in
  fst out = Js.Normal tt
  /\ Page.calls (snd out)
     = Page.calls w ++ [Page.Get (Page.api "governance-indices");
                        Page.Get (Page.api "model-comparison")]
  /\ ((exists radar pred,
         Page.governance_indices server = Page.Done radar
         /\ Page.model_comparison server = Page.Done pred
         /\ App.governanceData after = radar
         /\ App.predictionDetails after = pred
         /\ Page.console (snd out) = Page.console w)
      \/ ((exists why, Page.governance_indices server = Page.Failed why
                       \/ Page.model_comparison server = Page.Failed why)
          /\ after = before
          /\ Page.console (snd out)
             = Page.console w ++ ["Deep analytics sync failed"]))
  /\ App.rawData after = App.rawData before
  /\ App.status after = App.status before.
Proof.
  cbv zeta. rewrite fetchAnalytics_run.
  destruct (Page.governance_indices server) as [why|radar] eqn:Eg,
           (Page.model_comparison server) as [why'|pred] eqn:Ep; simpl;
    (split; [reflexivity|]); (split; [reflexivity|]);
    (split; [|split; reflexivity]).
  - right. split; [exists why; now left|]. now destruct (Page.hooks w).
  - right. split; [exists why; now left|]. now destruct (Page.hooks w).
  - right. split; [exists why'; now right|]. now destruct (Page.hooks w).
  - left. exists radar, pred. repeat split.
Qed.

Lemma mount_run :
  Page.mount server Page.fresh
  = match Page.summary server with
    | Page.Done (Some (r :: rs)) =>
        Page.fetchAnalytics server (snd (Page.init server Page.fresh))
    | _ => Page.init server Page.fresh
    end.
Proof.
  unfold Page.mount, Page.bind, Page.analytics_effect at 1, Page.ret.
  rewrite init_run. simpl.
  destruct (Page.summary server) as [why|[[|r rs]|]]; reflexivity.
Qed.

(** X11: while no records are loaded the dashboard shows empty charts and
    asks for nothing more.  When the summary request fails, or its body is
    empty or holds no record, mounting the component makes that one
    request and no other, the loader goes away, the status badge is green
    exactly when the request succeeded, no prediction is ever loaded, and
    the series, the pivot, the demographic split and the chart are all
    empty. *)
Theorem mount_without_records (other : string -> option Z) :
  match Page.summary server with
  | Page.Done (Some (_ :: _)) => False
  | _ => True
  end ->
  let out := Page.mount server Page.fresh in
  let s := Page.hooks (snd out) in
  fst out = Js.Normal tt
  /\ Page.calls (snd out) = [Page.Get (Page.api "summary")]
  /\ View.loader_shown s = false
  /\ View.badge_success s
     = match Page.summary server with
       | Page.Done _ => true
       | Page.Failed _ => false
       end
  /\ App.predictionDetails s = None
  /\ trendData other (App.rawData s) = []
  /\ studioData (App.rawData s) (App.pivotX s) (App.pivotY s) = []
  /\ demographicSplit (App.rawData s) = []
  /\ chartData (trendData other (App.rawData s)) (App.predictionDetails s)
     = Js.Normal [].
Proof.
  intros H. cbv zeta. rewrite mount_run.
  destruct (Page.summary server) as [why|[[|r rs]|]] eqn:E;
    try contradiction; rewrite init_run, E; simpl; repeat split.
Qed.

(** X12: once records are loaded the analytics are asked for, once.  When
    the summary request brings at least one record, mounting the component
    stores the records, turns the status to "SYSTEM ONLINE", and makes
    exactly three requests: the summary, then the governance indices and
    the model comparison.  The prediction details are the body of the
    model comparison if both analytics requests succeeded, and stay empty
    otherwise. *)
Theorem mount_with_records (r : Raw.t) (rs : list Raw.t) :
  Page.summary server = Page.Done (Some (r :: rs)) ->
  let out := Page.mount server Page.fresh in
  let s := Page.hooks (snd out) in
  fst out = Js.Normal tt
  /\ App.rawData s = r :: rs
  /\ App.status s = "SYSTEM ONLINE"
  /\ Page.calls (snd out)
     = [Page.Get (Page.api "summary");
        Page.Get (Page.api "governance-indices");
        Page.Get (Page.api "model-comparison")]
  /\ App.predictionDetails s
     = match Page.governance_indices server, Page.model_comparison server with
       | Page.Done _, Page.Done pred => pred
       | _, _ => None
       end.
Proof.
  intros H. cbv zeta. rewrite mount_run, H, fetchAnalytics_run, init_run, H.
  destruct (Page.governance_indices server), (Page.model_comparison server);
    simpl; repeat split.
Qed.
End Loading.

Lemma mount_without_records_witness :
  Page.calls (snd (Page.mount backend_down Page.fresh))
  = [Page.Get (Page.api "summary")]
  /\ trendData JsDate.strict_engine
       (App.rawData (Page.hooks (snd (Page.mount backend_down Page.fresh))))
     = [].
Proof.
  pose proof (mount_without_records backend_down JsDate.strict_engine I) as H.
  cbv zeta in H. split; [apply H | apply H].
Defined.

Lemma mount_with_records_witness :
  App.predictionDetails (Page.hooks (snd (Page.mount backend_up Page.fresh)))
  = App.predictionDetails ready.
Proof.
  apply (mount_with_records backend_up
           (dated (Some "2025-01-02") 5 1)
           [dated (Some "2025-01-01") 7 2; dated (Some "2025-01-02") 1 1]).
  reflexivity.
Defined.

(* ================================================================== *)
(** * The upload *)

Section Upload.
Context {num : Type}.
Variable server : Page.backend num.

(** X13: an upload ends in one of two states and touches nothing else.
    [handleFileUpload] never raises and posts the form once, with the
    first file of the input or, when the input has none, with the text
    "undefined".  If the request succeeds the upload status ends as
    "Ingestion Complete" and one reload is scheduled in 1500 ms; if it
    fails the status ends as "Ingestion Failed" and nothing is scheduled.
    No hook other than the upload status changes. *)
Theorem handleFileUpload_outcome (files : list Page.file)
  (w : Page.world num) :
  let sent :=
    match files with
    | f :: _ => Page.Blob f
    | [] => Page.Text "undefined"
    end in
  let out := Page.handleFileUpload server files w in
  let before := Page.hooks w in
  let after := Page.hooks (snd out) in
  fst out = Js.Normal tt
  /\ Page.calls (snd out)
     = Page.calls w ++ [Page.PostForm (Page.api "upload-data") "file" sent]
  /\ match Page.upload_data server sent with
     | Page.Done _ =>
         App.uploadStatus after = Some "Ingestion Complete"
         /\ Page.timers (snd out) = Page.timers w ++ [(1500, Page.Reload)]
     | Page.Failed _ =>
         App.uploadStatus after = Some "Ingestion Failed"
         /\ Page.timers (snd out) = Page.timers w
     end
  /\ after
     = App.mk_state (App.rawData before) (App.governanceData before)
         (App.predictionDetails before) (App.status before)
         (App.activeModel before) (App.aiBriefing before)
         (App.isAiLoading before) (App.pivotX before) (App.pivotY before)
         (App.uploadStatus after).
Proof.
  cbv zeta. unfold Page.handleFileUpload, Page.try_catch, Page.bind,
    Page.axios_post_form, Page.setUploadStatus, Page.set_hooks,
    Page.setTimeout.
  destruct files as [|f files]; simpl;
    match goal with
    | |- context [Page.upload_data server ?v] =>
        destruct (Page.upload_data server v)
    end; simpl; repeat split.
Qed.
End Upload.

(* ================================================================== *)
(** * The Prediction Lab *)

Section LabFacts.
Context {num : Type} {engine : Js.Engine num}.

(** [generateBriefing] is its two halves, joined by the reply. *)
Lemma generateBriefing_cut
  (network : string -> App.request num -> App.reply num)
  (s : App.state num) (w : App.world num) :
  App.generateBriefing network s w
  = App.bind (Lab.briefing_sent s)
      (fun req => Lab.briefing_settled (network App.ai_interpret req)) w.
Proof.
  unfold App.generateBriefing, Lab.briefing_sent, Lab.briefing_settled,
    App.bind, App.try_catch_finally, App.axios_post, App.lift, App.ret,
    App.setIsAiLoading, App.setAiBriefing.
  simpl.
  destruct (network App.ai_interpret (App.briefing_request s)) as [why|data];
    simpl; [reflexivity|].
  destruct (Js.get data "interpretation"); reflexivity.
Qed.

(** X14: switching the model hides the briefing.  After a briefing has
    been generated, whatever the reply was, a click on a model button
    leaves the briefing text empty, so the briefing panel is not shown;
    the chosen model is the active one and no request is made. *)
Theorem select_model_hides_briefing
  (network : string -> App.request num -> App.reply num)
  (s : App.state num) (name : string) :
  let briefed := snd (App.click network s) in
  let out := Lab.select_model name briefed in
  fst out = Js.Normal tt
  /\ View.briefing_shown (App.hooks (snd out)) = false
  /\ App.activeModel (App.hooks (snd out)) = name
  /\ App.posted (snd out) = App.posted briefed
  /\ App.predictionDetails (App.hooks (snd out)) = App.predictionDetails s
  /\ App.rawData (App.hooks (snd out)) = App.rawData s.
Proof.
  cbv zeta. unfold App.click. rewrite generateBriefing_run.
  repeat split.
Qed.

(** X15: a reply that arrives after the model was switched still lands.
    If a model button is clicked while a briefing request is on its way,
    the request is not withdrawn: when the reply arrives the briefing
    becomes what it would have become without the switch, while the
    active model is the newly chosen one; the request had named the model
    that was active at the click. *)
Theorem briefing_lands_after_switch (s : App.state num) (name : string)
  (reply : App.reply num) :
  let sent := Lab.briefing_sent s (App.mk_world s []) in
  let switched := snd (Lab.select_model name (snd sent)) in
  let settled := snd (Lab.briefing_settled reply switched) in
  let undisturbed := snd (App.click (fun _ _ => reply) s) in
  (exists req, fst sent = Js.Normal req /\ App.model req = App.activeModel s)
  /\ App.activeModel (App.hooks settled) = name
  /\ App.aiBriefing (App.hooks settled)
     = App.aiBriefing (App.hooks undisturbed)
  /\ App.isAiLoading (App.hooks settled) = false
  /\ App.posted settled = App.posted undisturbed.
Proof.
  cbv zeta. unfold App.click. rewrite generateBriefing_run.
  split; [exists (App.briefing_request s); split; reflexivity|].
  unfold Lab.briefing_sent, Lab.select_model, Lab.briefing_settled,
    Lab.setActiveModel, App.bind, App.try_catch_finally, App.lift, App.ret,
    App.setIsAiLoading, App.setAiBriefing.
  simpl. destruct reply as [why|data]; simpl; [repeat split|].
  destruct (Js.get data "interpretation"); repeat split.
Qed.


Lemma lab_key (name : string) :
  name = "XGBoost" \/ name = "RandomForest" ->
  View.replace "forest" "_forest" (View.toLowerCase name)
  = if String.eqb name "XGBoost" then "xgboost" else "random_forest".
Proof. intros [-> | ->]; reflexivity. Qed.

(** X17: the Prediction Lab and the Model Confidence card read the same
    prediction.  For either model the entry the Lab looks up under the
    lower-cased name is the entry the card and the briefing request use.
    When that entry has a confidence that is neither zero nor [NaN] the
    Lab, the card and the request show the same percentage; when the entry
    is absent the Lab shows "---" for volume and confidence where the card
    shows "NaN%". *)
Theorem lab_matches_card (s : App.state num) :
  App.activeModel s = "XGBoost" \/ App.activeModel s = "RandomForest" ->
  View.lab_entry s = App.currentPred s
  /\ (Js.truthy (App.confidence_of (App.currentPred s)) = true ->
      View.lab_confidence s = View.card_confidence s
      /\ View.lab_confidence s = App.confidence (App.briefing_request s))
  /\ (App.currentPred s = None ->
      View.lab_volume s = Js.Str "---"
      /\ View.lab_confidence s = "---"
      /\ View.card_confidence s = "NaN%").
Proof.
  intros Hm.
  assert (He : View.lab_entry s = App.currentPred s).
  { unfold View.lab_entry, App.currentPred. now rewrite (lab_key _ Hm). }
  split; [exact He|]. split.
  - intros Ht. unfold View.lab_confidence, View.card_confidence.
    rewrite He, Ht. split; reflexivity.
  - intros Hn. unfold View.lab_volume, View.lab_confidence,
      View.card_confidence. rewrite He, Hn. repeat split.
Qed.
End LabFacts.


Lemma lab_matches_card_witness :
  View.lab_entry
    (App.mk_state [] Js.Null (App.predictionDetails ready) "SYSTEM ONLINE"
       "XGBoost" (Js.Str "") false By_district Total_updates None)
  = Some (Prediction.mk_entry (Js.Str "2") (Js.Num 1))
  /\ View.lab_confidence
       (App.mk_state [] Js.Null (App.predictionDetails ready) "SYSTEM ONLINE"
          "XGBoost" (Js.Str "") false By_district Total_updates None)
     = "100.0%".
Proof.
  destruct (lab_matches_card
              (App.mk_state [] Js.Null (App.predictionDetails ready)
                 "SYSTEM ONLINE" "XGBoost" (Js.Str "") false By_district
                 Total_updates None)
              (or_introl eq_refl)) as (He & Hc & _).
  split; [exact He|]. exact (proj2 (Hc eq_refl)).
Defined.

(** The model is switched to R-Forest while the briefing for XGBoost is
    on its way; the briefing lands under R-Forest. *)
Example briefing_under_other_model :
  let reply :=
    App.Resolved (Js.Object [("interpretation", Js.Str "XGBoost expects growth.")]) in
  let sent := Lab.briefing_sent idle (App.mk_world idle []) in
  let switched := snd (Lab.select_model "RandomForest" (snd sent)) in
  let settled := App.hooks (snd (Lab.briefing_settled reply switched)) in
  App.activeModel settled = "RandomForest"
  /\ App.aiBriefing settled = Js.Str "XGBoost expects growth."
  /\ View.briefing_shown settled = true.
Proof. repeat split. Qed.
